(** * Student Management Dashboard: store, validation, debounce

    A shallow embedding of the data layer of the dashboard:
    - [types/index.ts]            (records [Student], [StudentFormData], [ValidationErrors])
    - [utils/validation.ts]       ([isValidEmail], [validateStudent], [hasValidationErrors])
    - [utils/mockApi.ts]          ([validateStudentOnServer])
    - [context/StudentContext.tsx] ([studentReducer], the provider's helpers, [getFilteredStudents])
    - [hooks/useDebounce.ts]      ([useDebounce])
    - [components/StudentForm.tsx] ([handleSubmit]) and the two handlers of [Dashboard.tsx].

    Conventions of the embedding.
    - A JavaScript string is a list of code units below 256 ([ascii]), that
      is ASCII and Latin-1 text; the models of the string built-ins
      ([toLowerCase], [trim], [includes], the regular expression classes) are
      the built-ins on such text: the letters A-Z and the Latin-1 capitals
      (codes 192 to 222 but for the sign at 215) have a lower case 32 codes up,
      and the white space characters are TAB, LF, VT, FF, CR, SPACE and the
      no-break space (160). Text with code units from 256 on, where
      [toLowerCase] no longer works one character at a time, is not covered.
    - A [Date] is its time value, an integer number of milliseconds ([Z]).
      [new Date()] reads the system clock: each read is an explicit argument of
      the function that performs it, in evaluation order.
    - [crypto.randomUUID()] and [getRandomProfileImage()] are random: their
      result is an explicit argument too.
    - Course ids are integer-valued numbers ([Z]). *)

From Stdlib Require Import List String Ascii Bool ZArith NArith Arith Lia.
Import ListNotations.

Set Implicit Arguments.

(* ================================================================= *)
(** ** JavaScript strings *)

Module JsString.

Definition jsstring := list ascii.

(** String literals. *)
Definition str (s : string) : jsstring := list_ascii_of_string s.

Fixpoint eqb (a b : jsstring) : bool :=
  match a, b with
  | [], [] => true
  | x :: a', y :: b' => Ascii.eqb x y && eqb a' b'
  | _, _ => false
  end.

(** [s.length] *)
Definition length (s : jsstring) : nat := List.length s.

(** Truthiness of a string: every string but the empty one. *)
Definition truthy (s : jsstring) : bool :=
  match s with [] => false | _ :: _ => true end.

(** White space and line terminators, as [trim] and the class [\s] see them. *)
Definition isWhiteSpace (c : ascii) : bool :=
  match N_of_ascii c with
  | 9%N | 10%N | 11%N | 12%N | 13%N | 32%N | 160%N => true
  | _ => false
  end.

Definition lowerChar (c : ascii) : ascii :=
  let n := N_of_ascii c in
  if ((65 <=? n) && (n <=? 90))%N
     || ((192 <=? n) && (n <=? 222) && negb (n =? 215))%N
  then ascii_of_N (n + 32) else c.

(** The ASCII characters, on which every version of [toLowerCase] works one
    character at a time. *)
Definition isAscii (c : ascii) : bool := (N_of_ascii c <? 128)%N.

(** [s.toLowerCase()] *)
Definition toLowerCase (s : jsstring) : jsstring := map lowerChar s.

(** [s.trimStart()] *)
Fixpoint trimStart (s : jsstring) : jsstring :=
  match s with
  | [] => []
  | c :: s' => if isWhiteSpace c then trimStart s' else s
  end.

(** [s.trimEnd()] *)
Fixpoint trimEnd (s : jsstring) : jsstring :=
  match s with
  | [] => []
  | c :: s' =>
      match trimEnd s' with
      | [] => if isWhiteSpace c then [] else [c]
      | t => c :: t
      end
  end.

(** [s.trim()] *)
Definition trim (s : jsstring) : jsstring := trimEnd (trimStart s).

(** [s.startsWith(t)] *)
Fixpoint startsWith (s t : jsstring) {struct t} : bool :=
  match t, s with
  | [], _ => true
  | _ :: _, [] => false
  | y :: t', x :: s' => Ascii.eqb x y && startsWith s' t'
  end.

(** [s.includes(t)]: [t] occurs in [s] at some position. *)
Fixpoint includes (s t : jsstring) : bool :=
  startsWith s t
  || match s with
     | [] => false
     | _ :: s' => includes s' t
     end.

(** [array.includes(x)] on an array of strings. *)
Definition arrayIncludes (array : list jsstring) (x : jsstring) : bool :=
  existsb (fun y => eqb y x) array.

End JsString.

(* ================================================================= *)
(** ** Regular expressions *)

(** The fragment of regular expressions the validation uses, matched against
    the whole input (the pattern is anchored by [^] and [$]). [test] decides
    the match by derivatives. *)
Module RegExp.
Import JsString.

Inductive regexp : Type :=
| Fail : regexp
| Empty : regexp
| Class (p : ascii -> bool) : regexp
| Seq (r1 r2 : regexp) : regexp
| Alt (r1 r2 : regexp) : regexp
| Star (r : regexp) : regexp.

(** [r+] *)
Definition Plus (r : regexp) : regexp := Seq r (Star r).

(** A literal character. *)
Definition Chr (c : ascii) : regexp := Class (Ascii.eqb c).

Fixpoint nullable (r : regexp) : bool :=
  match r with
  | Fail => false
  | Empty => true
  | Class _ => false
  | Seq r1 r2 => nullable r1 && nullable r2
  | Alt r1 r2 => nullable r1 || nullable r2
  | Star _ => true
  end.

Fixpoint deriv (c : ascii) (r : regexp) : regexp :=
  match r with
  | Fail => Fail
  | Empty => Fail
  | Class p => if p c then Empty else Fail
  | Seq r1 r2 =>
      if nullable r1
      then Alt (Seq (deriv c r1) r2) (deriv c r2)
      else Seq (deriv c r1) r2
  | Alt r1 r2 => Alt (deriv c r1) (deriv c r2)
  | Star r1 => Seq (deriv c r1) (Star r1)
  end.

(** [/^r$/.test(s)] *)
Fixpoint test (r : regexp) (s : jsstring) : bool :=
  match s with
  | [] => nullable r
  | c :: s' => test (deriv c r) s'
  end.

(** The language of a regular expression. *)
Inductive Matches : regexp -> jsstring -> Prop :=
| MEmpty : Matches Empty []
| MClass p c : p c = true -> Matches (Class p) [c]
| MSeq r1 r2 s1 s2 : Matches r1 s1 -> Matches r2 s2 -> Matches (Seq r1 r2) (s1 ++ s2)
| MAltL r1 r2 s : Matches r1 s -> Matches (Alt r1 r2) s
| MAltR r1 r2 s : Matches r2 s -> Matches (Alt r1 r2) s
| MStarNil r : Matches (Star r) []
| MStarCons r s1 s2 : Matches r s1 -> Matches (Star r) s2 -> Matches (Star r) (s1 ++ s2).

End RegExp.

(* ================================================================= *)
(** ** types/index.ts *)

Module Student.
Import JsString.
Record Student : Type := {
  id : jsstring;
  name : jsstring;
  email : jsstring;
  courseId : Z;
  profileImage : option jsstring;
  createdAt : Z;
  updatedAt : Z
}.
End Student.

(** [Omit<Student, 'id' | 'createdAt' | 'updatedAt'>] *)
Module StudentData.
Import JsString.
Record StudentData : Type := {
  name : jsstring;
  email : jsstring;
  courseId : Z;
  profileImage : option jsstring
}.
End StudentData.

Module StudentFormData.
Import JsString.
Record StudentFormData : Type := {
  name : jsstring;
  email : jsstring;
  courseId : jsstring;
  profileImage : jsstring
}.
End StudentFormData.

(** An absent key is [None]. *)
Module ValidationErrors.
Import JsString.
Record ValidationErrors : Type := {
  name : option jsstring;
  email : option jsstring;
  courseId : option jsstring
}.
End ValidationErrors.

Module Course.
Import JsString.
Record Course : Type := {
  id : Z;
  name : jsstring
}.
End Course.

Module ApiState.
Import JsString.
Record ApiState (T : Type) : Type := {
  data : option T;
  loading : bool;
  error : option jsstring
}.
Arguments data {T} _.
Arguments loading {T} _.
Arguments error {T} _.
End ApiState.

(* ================================================================= *)
(** ** utils/validation.ts *)

Module Validation.
Import JsString RegExp.

(** The class [[^\s@]]. *)
Definition notSpaceAt (c : ascii) : bool :=
  negb (isWhiteSpace c || Ascii.eqb c "@").

(** [/^[^\s@]+@[^\s@]+\.[^\s@]+$/] *)
Definition emailRegex : regexp :=
  Seq (Plus (Class notSpaceAt))
    (Seq (Chr "@")
       (Seq (Plus (Class notSpaceAt))
          (Seq (Chr ".")
             (Plus (Class notSpaceAt))))).

Definition isValidEmail (email : jsstring) : bool :=
  test emailRegex (trim email).

Definition noErrors : ValidationErrors.ValidationErrors :=
  {| ValidationErrors.name := None;
     ValidationErrors.email := None;
     ValidationErrors.courseId := None |}.

Definition nameError (name : jsstring) : option jsstring :=
  if negb (truthy (trim name)) then Some (str "Name is required")
  else if length (trim name) <? 2 then Some (str "Name must be at least 2 characters")
  else if 50 <? length (trim name) then Some (str "Name must be less than 50 characters")
  else None.

Definition emailError (email : jsstring) : option jsstring :=
  if negb (truthy (trim email)) then Some (str "Email is required")
  else if negb (isValidEmail email) then Some (str "Please enter a valid email address")
  else None.

Definition courseIdError (courseId : jsstring) : option jsstring :=
  if negb (truthy courseId) || eqb courseId (str "0")
  then Some (str "Please select a course")
  else None.

(** The three [if] chains of [validateStudent] write three different keys
    of [errors]; each chain is one of the functions above. *)
Definition validateStudent (formData : StudentFormData.StudentFormData)
  : ValidationErrors.ValidationErrors :=
  {| ValidationErrors.name := nameError (StudentFormData.name formData);
     ValidationErrors.email := emailError (StudentFormData.email formData);
     ValidationErrors.courseId := courseIdError (StudentFormData.courseId formData) |}.

(** [Object.keys(errors)] *)
Definition keys (errors : ValidationErrors.ValidationErrors) : list jsstring :=
  (match ValidationErrors.name errors with Some _ => [str "name"] | None => [] end)
  ++ (match ValidationErrors.email errors with Some _ => [str "email"] | None => [] end)
  ++ (match ValidationErrors.courseId errors with Some _ => [str "courseId"] | None => [] end).

Definition hasValidationErrors (errors : ValidationErrors.ValidationErrors) : bool :=
  0 <? List.length (keys errors).

End Validation.

(* ================================================================= *)
(** ** context/StudentContext.tsx *)

Module StudentContext.
Import JsString.

Record StudentState : Type := {
  students : list Student.Student;
  searchTerm : jsstring;
  selectedCourseFilter : option Z
}.

Inductive StudentAction : Type :=
| ADD_STUDENT (payload : Student.Student)
| UPDATE_STUDENT (payload : Student.Student)
| DELETE_STUDENT (payload : jsstring)
| SET_SEARCH_TERM (payload : jsstring)
| SET_COURSE_FILTER (payload : option Z)
| LOAD_STUDENTS (payload : list Student.Student).

Definition studentReducer (state : StudentState) (action : StudentAction) : StudentState :=
  match action with
  | ADD_STUDENT payload =>
      {| students := students state ++ [payload];
         searchTerm := searchTerm state;
         selectedCourseFilter := selectedCourseFilter state |}
  | UPDATE_STUDENT payload =>
      {| students :=
           map (fun student =>
                  if eqb (Student.id student) (Student.id payload)
                  then payload else student)
               (students state);
         searchTerm := searchTerm state;
         selectedCourseFilter := selectedCourseFilter state |}
  | DELETE_STUDENT payload =>
      {| students :=
           filter (fun student => negb (eqb (Student.id student) payload))
                  (students state);
         searchTerm := searchTerm state;
         selectedCourseFilter := selectedCourseFilter state |}
  | SET_SEARCH_TERM payload =>
      {| students := students state;
         searchTerm := payload;
         selectedCourseFilter := selectedCourseFilter state |}
  | SET_COURSE_FILTER payload =>
      {| students := students state;
         searchTerm := searchTerm state;
         selectedCourseFilter := payload |}
  | LOAD_STUDENTS payload =>
      {| students := payload;
         searchTerm := searchTerm state;
         selectedCourseFilter := selectedCourseFilter state |}
  end.

Definition initialState : StudentState :=
  {| students := []; searchTerm := []; selectedCourseFilter := None |}.

(** [dispatch] of [useReducer]: the next state is the reducer's. *)
Definition dispatch (action : StudentAction) (state : StudentState) : StudentState :=
  studentReducer state action.

(** The record [addStudent] builds: [uuid] is the result of
    [crypto.randomUUID()], [now1] and [now2] the two clock reads of
    [createdAt: new Date()] and [updatedAt: new Date()], in that order. *)
Definition newStudent (studentData : StudentData.StudentData)
           (uuid : jsstring) (now1 now2 : Z) : Student.Student :=
  {| Student.id := uuid;
     Student.name := StudentData.name studentData;
     Student.email := StudentData.email studentData;
     Student.courseId := StudentData.courseId studentData;
     Student.profileImage := StudentData.profileImage studentData;
     Student.createdAt := now1;
     Student.updatedAt := now2 |}.

Definition addStudent (studentData : StudentData.StudentData)
           (uuid : jsstring) (now1 now2 : Z) : StudentState -> StudentState :=
  dispatch (ADD_STUDENT (newStudent studentData uuid now1 now2)).

(** [{ ...student, updatedAt: new Date() }], [now] being the clock read. *)
Definition updatedStudent (student : Student.Student) (now : Z) : Student.Student :=
  {| Student.id := Student.id student;
     Student.name := Student.name student;
     Student.email := Student.email student;
     Student.courseId := Student.courseId student;
     Student.profileImage := Student.profileImage student;
     Student.createdAt := Student.createdAt student;
     Student.updatedAt := now |}.

Definition updateStudent (student : Student.Student) (now : Z)
  : StudentState -> StudentState :=
  dispatch (UPDATE_STUDENT (updatedStudent student now)).

Definition deleteStudent (id : jsstring) : StudentState -> StudentState :=
  dispatch (DELETE_STUDENT id).

Definition setSearchTerm (term : jsstring) : StudentState -> StudentState :=
  dispatch (SET_SEARCH_TERM term).

Definition setCourseFilter (courseId : option Z) : StudentState -> StudentState :=
  dispatch (SET_COURSE_FILTER courseId).

Definition matchesSearch (state : StudentState) (student : Student.Student) : bool :=
  includes (toLowerCase (Student.name student)) (toLowerCase (searchTerm state))
  || includes (toLowerCase (Student.email student)) (toLowerCase (searchTerm state)).

Definition matchesCourse (state : StudentState) (student : Student.Student) : bool :=
  match selectedCourseFilter state with
  | None => true
  | Some courseId => Z.eqb (Student.courseId student) courseId
  end.

Definition getFilteredStudents (state : StudentState) : list Student.Student :=
  filter (fun student => matchesSearch state student && matchesCourse state student)
         (students state).

End StudentContext.

(* ================================================================= *)
(** ** utils/mockApi.ts *)

(** Asynchronous code runs against a world made of the console and the
    entity store, the two pieces of state the application shares. An [async]
    function is a world transformer that settles as resolved or rejected;
    [await] is the bind of that monad. The tasks of other callers that may
    run while a function is suspended are not part of a single run. *)
Module MockApi.
Import JsString.

Record World : Type := {
  console : list jsstring;
  store : StudentContext.StudentState
}.

Inductive Settled (A : Type) : Type :=
| Resolved (value : A)
| Rejected (message : jsstring).
Arguments Resolved {A} value.
Arguments Rejected {A} message.

Definition Async (A : Type) : Type := World -> Settled A * World.

Definition resolve {A : Type} (value : A) : Async A :=
  fun w => (Resolved value, w).

(** [throw new Error(message)] *)
Definition throwError {A : Type} (message : jsstring) : Async A :=
  fun w => (Rejected message, w).

(** [await m; k] *)
Definition await {A B : Type} (m : Async A) (k : A -> Async B) : Async B :=
  fun w =>
    match m w with
    | (Resolved value, w') => k value w'
    | (Rejected message, w') => (Rejected message, w')
    end.

(** [try { m } catch (error) { handler(error.message) }] *)
Definition tryCatch {A : Type} (m : Async A) (handler : jsstring -> Async A) : Async A :=
  fun w =>
    match m w with
    | (Resolved value, w') => (Resolved value, w')
    | (Rejected message, w') => handler message w'
    end.

Definition console_log (line : jsstring) : Async unit :=
  fun w => (Resolved tt, {| console := console w ++ [line]; store := store w |}).

(** The promise resolves when the timer of [ms] milliseconds expires;
    nothing else happens. *)
Definition simulateNetworkDelay (ms : Z) : Async unit := resolve tt.

Definition existingEmails : list jsstring :=
  [str "test@example.com"; str "admin@test.com"].

Definition duplicateEmail : jsstring :=
  str "A student with this email already exists".

Definition validateStudentOnServer (studentData : StudentData.StudentData) : Async unit :=
  await (console_log (str "1. Validation started (synchronous)")) (fun _ =>
  await (await (resolve tt) (fun _ =>
           console_log (str "2. Microtask executed before setTimeout"))) (fun _ =>
  await (simulateNetworkDelay 300) (fun _ =>
  await (console_log (str "3. Network delay completed (after timer)")) (fun _ =>
  if arrayIncludes existingEmails (toLowerCase (StudentData.email studentData))
  then throwError duplicateEmail
  else console_log (str "4. Validation completed successfully"))))).

Definition mockCourses : list Course.Course :=
  [ {| Course.id := 1; Course.name := str "HTML Basics" |};
    {| Course.id := 2; Course.name := str "CSS Mastery" |};
    {| Course.id := 3; Course.name := str "JavaScript Pro" |};
    {| Course.id := 4; Course.name := str "React In Depth" |};
    {| Course.id := 5; Course.name := str "Node.js Fundamentals" |};
    {| Course.id := 6; Course.name := str "Database Design" |} ].

(** [networkError] is the outcome of the test [Math.random() < 0.1], the
    only use of the draw. The copy through JSON has the values of
    [mockCourses]. *)
Definition fetchCourses (networkError : bool) : Async (list Course.Course) :=
  tryCatch
    (await (simulateNetworkDelay 600) (fun _ =>
     if networkError
     then throwError (str "Network error: Unable to fetch courses")
     else resolve mockCourses))
    (fun message => throwError (str "Failed to fetch courses: " ++ message)).

End MockApi.

(* ================================================================= *)
(** ** hooks/useDebounce.ts *)

(** One instance of the hook, with its state cell, the dependencies of its
    effect and the timer the effect holds. Time is the integer clock of the
    event loop, in milliseconds; an effect runs at the time of its render. *)
Module UseDebounce.
Section Hook.
Variable T : Type.
(** [Object.is] on two values of the dependency [value]. *)
Variable sameValue : T -> T -> bool.

(** A pending [setTimeout]: when it expires and the [value] its callback
    closes over. *)
Record Timeout : Type := { expires : Z; captured : T }.

Record Hook : Type := {
  debouncedValue : T;
  deps : T * Z;
  handler : option Timeout
}.






(** Unmount: the cleanup clears the timer. *)
Definition unmount (h : Hook) : Hook :=
  {| debouncedValue := debouncedValue h; deps := deps h; handler := None |}.














End Hook.
End UseDebounce.

(* ================================================================= *)
(** ** hooks/useCourses.ts *)

Module UseCourses.
Import JsString MockApi.

(** [useState] of the hook. *)
Definition initialApiState : ApiState.ApiState (list Course.Course) :=
  {| ApiState.data := None; ApiState.loading := true; ApiState.error := None |}.

(** [setApiState(prev => ({ ...prev, loading: true, error: null }))] *)
Definition startLoading (prev : ApiState.ApiState (list Course.Course))
  : ApiState.ApiState (list Course.Course) :=
  {| ApiState.data := ApiState.data prev;
     ApiState.loading := true;
     ApiState.error := None |}.

(** The two states [loadCourses] sets, in order: the one before the fetch
    and the one after it has settled. *)
Definition loadCourses (networkError : bool)
           (prev : ApiState.ApiState (list Course.Course)) (w : World)
  : (ApiState.ApiState (list Course.Course) * ApiState.ApiState (list Course.Course))
    * World :=
  match fetchCourses networkError w with
  | (Resolved courses, w') =>
      ((startLoading prev,
        {| ApiState.data := Some courses;
           ApiState.loading := false;
           ApiState.error := None |}), w')
  | (Rejected message, w') =>
      ((startLoading prev,
        {| ApiState.data := None;
           ApiState.loading := false;
           ApiState.error := Some message |}), w')
  end.

(** [retryCourses] calls [loadCourses]. *)
Definition retryCourses := loadCourses.

End UseCourses.

(* ================================================================= *)
(** ** components/StudentList.tsx and components/StudentCard.tsx *)

Module StudentList.
Import JsString.

(** A [Record<number, Course>]: the course under each key, if any. *)
Definition CourseMap : Type := Z -> option Course.Course.

Definition emptyMap : CourseMap := fun _ => None.

(** [map[key] = course] *)
Definition assign (map : CourseMap) (key : Z) (course : Course.Course) : CourseMap :=
  fun k => if Z.eqb k key then Some course else map k.

(** [courses.reduce((map, course) => { map[course.id] = course; return map }, {})] *)
Definition courseMap (courses : list Course.Course) : CourseMap :=
  fold_left (fun map course => assign map (Course.id course) course) courses emptyMap.

Definition getCourseForStudent (courses : list Course.Course) (student : Student.Student)
  : option Course.Course :=
  courseMap courses (Student.courseId student).

(** [students.filter(s => s.courseId === course.id).length] *)
Definition enrolledCount (students : list Student.Student) (course : Course.Course) : nat :=
  List.length (filter (fun s => Z.eqb (Student.courseId s) (Course.id course)) students).

(** [course?.name || 'Unknown Course'], the label of the card. *)
Definition courseLabel (course : option Course.Course) : jsstring :=
  match course with
  | Some c => if truthy (Course.name c) then Course.name c else str "Unknown Course"
  | None => str "Unknown Course"
  end.

End StudentList.

(* ================================================================= *)
(** ** components/StudentForm.tsx and components/Dashboard.tsx *)

Module StudentForm.
Import JsString MockApi.

(** How a submission ends: the state the form sets or the callback it calls.
    The flags [isSubmitting] and the reset of [serverError] only drive the
    display and are left out. *)
Inductive Submission : Type :=
| Invalid (errors : ValidationErrors.ValidationErrors)
| Failed (serverError : jsstring)
| Created (studentData : StudentData.StudentData)
| Edited (student : Student.Student).

Section Form.
(** The built-in [parseInt], on the value of the course select. *)
Variable parseInt : jsstring -> Z.

(** The argument of the call of [validateStudentOnServer]. *)
Definition serverData (formData : StudentFormData.StudentFormData) : StudentData.StudentData :=
  {| StudentData.name := trim (StudentFormData.name formData);
     StudentData.email := trim (StudentFormData.email formData);
     StudentData.courseId := parseInt (StudentFormData.courseId formData);
     StudentData.profileImage := Some (StudentFormData.profileImage formData) |}.

(** [studentData]; [randomImage] is the result of [getRandomProfileImage()]. *)
Definition preparedData (formData : StudentFormData.StudentFormData)
           (randomImage : jsstring) : StudentData.StudentData :=
  {| StudentData.name := trim (StudentFormData.name formData);
     StudentData.email := trim (StudentFormData.email formData);
     StudentData.courseId := parseInt (StudentFormData.courseId formData);
     StudentData.profileImage :=
       Some (if truthy (StudentFormData.profileImage formData)
             then StudentFormData.profileImage formData
             else randomImage) |}.

(** [{ ...student, ...studentData }] *)
Definition merged (student : Student.Student) (studentData : StudentData.StudentData)
  : Student.Student :=
  {| Student.id := Student.id student;
     Student.name := StudentData.name studentData;
     Student.email := StudentData.email studentData;
     Student.courseId := StudentData.courseId studentData;
     Student.profileImage := StudentData.profileImage studentData;
     Student.createdAt := Student.createdAt student;
     Student.updatedAt := Student.updatedAt student |}.

(** [student] is the prop of the form ([isEditing] when present) and
    [onUpdate] tells whether that callback was given. *)
Definition handleSubmit (formData : StudentFormData.StudentFormData)
           (student : option Student.Student) (onUpdate : bool)
           (randomImage : jsstring) : Async Submission :=
  let errors := Validation.validateStudent formData in
  if Validation.hasValidationErrors errors then resolve (Invalid errors)
  else
    tryCatch
      (await (match student with
              | None => validateStudentOnServer (serverData formData)
              | Some _ => resolve tt
              end) (fun _ =>
       let studentData := preparedData formData randomImage in
       match student with
       | Some s => if onUpdate
                   then resolve (Edited (merged s studentData))
                   else resolve (Created studentData)
       | None => resolve (Created studentData)
       end))
      (fun message => resolve (Failed message)).

(** The store after the callbacks of the dashboard, [handleAddStudent]
    and [handleUpdateStudent], have served a submission. *)
Definition commit (outcome : Submission) (uuid : jsstring) (now1 now2 : Z)
           (state : StudentContext.StudentState) : StudentContext.StudentState :=
  match outcome with
  | Created studentData => StudentContext.addStudent studentData uuid now1 now2 state
  | Edited s => StudentContext.updateStudent s now1 state
  | Invalid _ => state
  | Failed _ => state
  end.

End Form.
End StudentForm.

(* ================================================================= *)
(** * Vocabulary of the specification *)

Module Spec.
Import JsString.

(** A part of an address: non-empty, without blanks and without [@]. *)
Definition EmailPart (s : jsstring) : Prop :=
  s <> [] /\ Forall (fun c => Validation.notSpaceAt c = true) s.

(** The shape [local@domain.tld]. *)
Definition EmailShape (s : jsstring) : Prop :=
  exists local domain tld,
    s = local ++ str "@" ++ domain ++ str "." ++ tld
    /\ EmailPart local /\ EmailPart domain /\ EmailPart tld.

(** [s] contains [t] up to the case of letters: some factor of [s] has the
    lower-cased form of [t]. *)
Definition ContainsIgnoringCase (s t : jsstring) : Prop :=
  exists a u b, s = a ++ u ++ b /\ toLowerCase u = toLowerCase t.

(** [l1] is [l2] with some elements left out, the others in their order. *)
Inductive Subsequence {A : Type} : list A -> list A -> Prop :=
| SubNil : Subsequence [] []
| SubSkip x l1 l2 : Subsequence l1 l2 -> Subsequence l1 (x :: l2)
| SubKeep x l1 l2 : Subsequence l1 l2 -> Subsequence (x :: l1) (x :: l2).

(** [l'] is [l] restricted to the elements that satisfy [P]: nothing else is
    kept, nothing that satisfies [P] is dropped, and the order is that of [l]. *)
Inductive Restriction {A : Type} (P : A -> Prop) : list A -> list A -> Prop :=
| RNil : Restriction P [] []
| RKeep x l l' : P x -> Restriction P l l' -> Restriction P (x :: l) (x :: l')
| RDrop x l l' : ~ P x -> Restriction P l l' -> Restriction P (x :: l) l'.

(** The search predicate and the course predicate of the projection. *)
Definition SearchPredicate (state : StudentContext.StudentState) (r : Student.Student) : Prop :=
  StudentContext.searchTerm state = []
  \/ ContainsIgnoringCase (Student.name r) (StudentContext.searchTerm state)
  \/ ContainsIgnoringCase (Student.email r) (StudentContext.searchTerm state).

Definition CoursePredicate (state : StudentContext.StudentState) (r : Student.Student) : Prop :=
  StudentContext.selectedCourseFilter state = None
  \/ StudentContext.selectedCourseFilter state = Some (Student.courseId r).

Definition Visible (state : StudentContext.StudentState) (r : Student.Student) : Prop :=
  SearchPredicate state r /\ CoursePredicate state r.

(** The ids of the record set, in order. *)
Definition ids (state : StudentContext.StudentState) : list jsstring :=
  map Student.id (StudentContext.students state).

(** The three mutations, each with what its call reads from the
    environment: the fresh id and the clock. *)
Inductive Operation : Type :=
| Add (studentData : StudentData.StudentData) (uuid : jsstring) (now1 now2 : Z)
| Update (student : Student.Student) (now : Z)
| Delete (id : jsstring).

Definition perform (state : StudentContext.StudentState) (op : Operation)
  : StudentContext.StudentState :=
  match op with
  | Add studentData uuid now1 now2 => StudentContext.addStudent studentData uuid now1 now2 state
  | Update student now => StudentContext.updateStudent student now state
  | Delete id => StudentContext.deleteStudent id state
  end.

Definition performAll (ops : list Operation) (state : StudentContext.StudentState)
  : StudentContext.StudentState :=
  fold_left perform ops state.

(** Every [Add] of the sequence draws an id that no record of the store
    carries at that time. *)
Fixpoint freshIds (state : StudentContext.StudentState) (ops : list Operation) : bool :=
  match ops with
  | [] => true
  | op :: rest =>
      match op with
      | Add _ uuid _ _ => negb (arrayIncludes (ids state) uuid)
      | _ => true
      end
      && freshIds (perform state op) rest
  end.

(** The form with its name and its address trimmed, as the form submits them. *)
Definition trimmedForm (formData : StudentFormData.StudentFormData)
  : StudentFormData.StudentFormData :=
  {| StudentFormData.name := trim (StudentFormData.name formData);
     StudentFormData.email := trim (StudentFormData.email formData);
     StudentFormData.courseId := StudentFormData.courseId formData;
     StudentFormData.profileImage := StudentFormData.profileImage formData |}.


End Spec.

(* ================================================================= *)
(** * Sample data *)

Module Sample.
Import JsString StudentContext.

Definition student (id name email : string) (courseId : Z) : Student.Student :=
  {| Student.id := str id;
     Student.name := str name;
     Student.email := str email;
     Student.courseId := courseId;
     Student.profileImage := None;
     Student.createdAt := 0;
     Student.updatedAt := 0 |}.

Definition ann : Student.Student := student "1" "Ann" "a@x.com" 1.
Definition bob : Student.Student := student "2" "Bob" "b@x.com" 2.

(** The record set [[Ann; Bob]], no search term, no course filter. *)
Definition annAndBob : StudentState :=
  dispatch (ADD_STUDENT bob) (dispatch (ADD_STUDENT ann) initialState).

(** Ann's record as an edit of her name sends it. *)
Definition anna : Student.Student := student "1" "Anna" "a@x.com" 1.

(** A record whose stored name starts with a blank. *)
Definition paddedAnn : Student.Student := student "3" " Ann" "ann@x.com" 1.

Definition draft (name email : string) (courseId : Z) : StudentData.StudentData :=
  {| StudentData.name := str name;
     StudentData.email := str email;
     StudentData.courseId := courseId;
     StudentData.profileImage := None |}.

Definition form (name email courseId : string) : StudentFormData.StudentFormData :=
  {| StudentFormData.name := str name;
     StudentFormData.email := str email;
     StudentFormData.courseId := str courseId;
     StudentFormData.profileImage := [] |}.

(** [parseInt] on the options of a course select that offers course 1. *)
Definition parseCourse1 (value : jsstring) : Z := 1.

Definition emptyWorld : MockApi.World :=
  {| MockApi.console := []; MockApi.store := initialState |}.



End Sample.

(* ================================================================= *)
(** * Properties *)

Unset Implicit Arguments.

(** ** Strings *)

Section StringFacts.
Import JsString.

Lemma eqb_eq (a b : jsstring) : eqb a b = true <-> a = b.
Proof.
  revert b; induction a as [|x a IH]; intros [|y b]; simpl; split;
    try discriminate; try reflexivity.
  - rewrite andb_true_iff, Ascii.eqb_eq, IH. now intros [-> ->].
  - intros H; injection H as -> ->.
    rewrite andb_true_iff, Ascii.eqb_eq, IH; auto.
Qed.

Lemma eqb_refl (a : jsstring) : eqb a a = true.
Proof. now apply eqb_eq. Qed.

Lemma eqb_neq (a b : jsstring) : eqb a b = false <-> a <> b.
Proof.
  rewrite <- eqb_eq. destruct (eqb a b); split; congruence.
Qed.

Lemma arrayIncludes_In (array : list jsstring) (x : jsstring) :
  arrayIncludes array x = true <-> In x array.
Proof.
  unfold arrayIncludes. rewrite existsb_exists. split.
  - intros (y & Hy & E). apply eqb_eq in E. now subst.
  - intros H. exists x. split; [assumption | apply eqb_refl].
Qed.

Lemma startsWith_prefix (s t : jsstring) :
  startsWith s t = true <-> exists b, s = t ++ b.
Proof.
  revert s; induction t as [|y t IH]; intros s; simpl.
  - split; [intros _; now exists s | reflexivity].
  - destruct s as [|x s]; simpl.
    + split; [discriminate | intros (b & E); discriminate].
    + rewrite andb_true_iff, Ascii.eqb_eq, IH. split.
      * intros (-> & b & ->). now exists b.
      * intros (b & E). injection E as -> ->. split; [reflexivity | now exists b].
Qed.

(** [includes] finds exactly the factors of a string. *)
Lemma includes_factor (s t : jsstring) :
  includes s t = true <-> exists a b, s = a ++ t ++ b.
Proof.
  induction s as [|x s IH]; simpl.
  - rewrite orb_false_r, startsWith_prefix. split.
    + intros (b & E). now exists [], b.
    + intros (a & b & E). destruct a; simpl in E.
      * now exists b.
      * discriminate.
  - rewrite orb_true_iff, startsWith_prefix, IH. split.
    + intros [(b & E) | (a & b & E)].
      * now exists [], b.
      * exists (x :: a), b. simpl. now rewrite E.
    + intros (a & b & E). destruct a as [|y a]; simpl in E.
      * left. now exists b.
      * right. injection E as -> ->. now exists a, b.
Qed.

Lemma includes_nil (s : jsstring) : includes s [] = true.
Proof. apply includes_factor. now exists [], s. Qed.

Lemma toLowerCase_app (a b : jsstring) :
  toLowerCase (a ++ b) = toLowerCase a ++ toLowerCase b.
Proof. apply map_app. Qed.

Lemma toLowerCase_nil_inv (s : jsstring) : toLowerCase s = [] -> s = [].
Proof. destruct s; [reflexivity | discriminate]. Qed.

(** A factor of the lower-cased string is the lower-cased form of a factor. *)
Lemma toLowerCase_factor (s a u b : jsstring) :
  toLowerCase s = a ++ u ++ b ->
  exists a' u' b', s = a' ++ u' ++ b' /\ toLowerCase u' = u.
Proof.
  unfold toLowerCase. intros E.
  apply map_eq_app in E as (a' & r & -> & Ea & Er).
  apply map_eq_app in Er as (u' & b' & -> & Eu & Eb).
  now exists a', u', b'.
Qed.

Lemma trimStart_split (s : jsstring) :
  exists w, s = w ++ trimStart s /\ Forall (fun c => isWhiteSpace c = true) w.
Proof.
  induction s as [|c s (w & E & F)]; simpl.
  - now exists [].
  - destruct (isWhiteSpace c) eqn:W.
    + exists (c :: w). split; [simpl; now rewrite <- E | now constructor].
    + now exists [].
Qed.

Lemma trimEnd_split (s : jsstring) :
  exists w, s = trimEnd s ++ w /\ Forall (fun c => isWhiteSpace c = true) w.
Proof.
  induction s as [|c s (w & E & F)]; simpl.
  - now exists [].
  - destruct (trimEnd s) as [|d t] eqn:Et.
    + destruct (isWhiteSpace c) eqn:W.
      * exists (c :: w). simpl in E. subst s. split; [reflexivity | now constructor].
      * exists w. simpl in *. now subst s.
    + exists w. split; [simpl; now rewrite E at 1 | assumption].
Qed.

(** The trimmed string is a factor of the string, between two blanks. *)
Lemma trim_split (s : jsstring) :
  exists w1 w2, s = w1 ++ trim s ++ w2
                /\ Forall (fun c => isWhiteSpace c = true) w1
                /\ Forall (fun c => isWhiteSpace c = true) w2.
Proof.
  destruct (trimStart_split s) as (w1 & E1 & F1).
  destruct (trimEnd_split (trimStart s)) as (w2 & E2 & F2).
  exists w1, w2. unfold trim. now rewrite <- E2.
Qed.

Lemma trimEnd_idem (s : jsstring) : trimEnd (trimEnd s) = trimEnd s.
Proof.
  induction s as [|c s IH]; simpl; [reflexivity|].
  destruct (trimEnd s) as [|d t] eqn:Et.
  - destruct (isWhiteSpace c) eqn:W; simpl; [reflexivity | now rewrite W].
  - change (trimEnd (c :: d :: t)) with
      (match trimEnd (d :: t) with
       | [] => if isWhiteSpace c then [] else [c]
       | t' => c :: t'
       end).
    now rewrite IH.
Qed.

(** A string that does not start with a blank keeps its start when trimmed
    at the end. *)
Lemma trimStart_trimEnd (s : jsstring) :
  trimStart s = s -> trimStart (trimEnd s) = trimEnd s.
Proof.
  destruct s as [|c s]; simpl; [reflexivity|].
  destruct (isWhiteSpace c) eqn:W.
  - intros E. exfalso.
    destruct (trimStart_split s) as (w & Es & _).
    apply (f_equal (@List.length ascii)) in E.
    apply (f_equal (@List.length ascii)) in Es.
    rewrite length_app in Es. simpl in E. lia.
  - intros _. destruct (trimEnd s); simpl; now rewrite W.
Qed.

Lemma trimStart_idem (s : jsstring) : trimStart (trimStart s) = trimStart s.
Proof.
  induction s as [|c s IH]; simpl; [reflexivity|].
  destruct (isWhiteSpace c) eqn:W; [assumption | simpl; now rewrite W].
Qed.

Lemma trim_idem (s : jsstring) : trim (trim s) = trim s.
Proof.
  unfold trim.
  rewrite (trimStart_trimEnd (trimStart s) (trimStart_idem s)).
  apply trimEnd_idem.
Qed.

End StringFacts.

(** ** Regular expressions: [test] decides the language *)

Section RegExpFacts.
Import JsString RegExp.

Lemma nullable_Matches (r : regexp) : nullable r = true <-> Matches r [].
Proof.
  induction r as [| |p|r1 IH1 r2 IH2|r1 IH1 r2 IH2|r IH]; simpl.
  - split; [discriminate | inversion 1].
  - split; [constructor | reflexivity].
  - split; [discriminate | inversion 1].
  - rewrite andb_true_iff, IH1, IH2. split.
    + intros [H1 H2]. exact (MSeq H1 H2).
    + inversion 1 as [| |? ? s1 s2 H1 H2 E1 E2| | | |]; subst.
      apply app_eq_nil in E2 as [-> ->]. now split.
  - rewrite orb_true_iff, IH1, IH2. split.
    + intros [H|H]; [now apply MAltL | now apply MAltR].
    + inversion 1; subst; [now left | now right].
  - split; [constructor | reflexivity].
Qed.

Lemma Matches_Star_cons (r : regexp) (c : ascii) (s : jsstring) :
  Matches (Star r) (c :: s) ->
  exists s1 s2, s = s1 ++ s2 /\ Matches r (c :: s1) /\ Matches (Star r) s2.
Proof.
  intros H. remember (Star r) as r' eqn:Er. remember (c :: s) as cs eqn:Es.
  revert s Es.
  induction H as [| | | | | |r0 s1 s2 H1 _ H2 IH2]; try discriminate; intros s Es.
  injection Er as ->.
  destruct s1 as [|d s1]; simpl in Es.
  - now apply IH2.
  - injection Es as -> <-. now exists s1, s2.
Qed.

Lemma deriv_Matches (c : ascii) (r : regexp) (s : jsstring) :
  Matches (deriv c r) s <-> Matches r (c :: s).
Proof.
  revert s.
  induction r as [| |p|r1 IH1 r2 IH2|r1 IH1 r2 IH2|r IH]; intros s; simpl.
  - split; inversion 1.
  - split; inversion 1.
  - destruct (p c) eqn:P; split.
    + inversion 1; subst. now constructor.
    + inversion 1; subst. constructor.
    + inversion 1.
    + inversion 1; subst. congruence.
  - assert (Hseq : Matches (Seq (deriv c r1) r2) s ->
                   Matches (Seq r1 r2) (c :: s)).
    { inversion 1 as [| |? ? s1 s2 H1 H2| | | |]; subst.
      apply IH1 in H1. exact (MSeq H1 H2). }
    assert (Hinv : Matches (Seq r1 r2) (c :: s) ->
                   Matches (Seq (deriv c r1) r2) s
                   \/ (Matches r1 [] /\ Matches r2 (c :: s))).
    { inversion 1 as [| |? ? s1 s2 H1 H2 E1 E2| | | |]; subst.
      destruct s1 as [|d s1]; simpl in E2.
      - right. subst s2. now split.
      - left. injection E2 as -> <-. apply IH1 in H1. exact (MSeq H1 H2). }
    destruct (nullable r1) eqn:N; split.
    + inversion 1; subst; [now apply Hseq|].
      apply nullable_Matches in N. apply (MSeq (s1 := []) N). now apply IH2.
    + intros H. destruct (Hinv H) as [H'|[_ H']];
        [now apply MAltL | apply MAltR; now apply IH2].
    + exact Hseq.
    + intros H. destruct (Hinv H) as [H'|[H' _]]; [assumption|].
      apply nullable_Matches in H'. congruence.
  - split.
    + inversion 1; subst; [apply MAltL; now apply IH1 | apply MAltR; now apply IH2].
    + inversion 1; subst; [apply MAltL; now apply IH1 | apply MAltR; now apply IH2].
  - split.
    + inversion 1 as [| |? ? s1 s2 H1 H2| | | |]; subst.
      apply IH in H1. exact (MStarCons H1 H2).
    + intros H. apply Matches_Star_cons in H as (s1 & s2 & -> & H1 & H2).
      apply IH in H1. exact (MSeq H1 H2).
Qed.

Theorem test_Matches (r : regexp) (s : jsstring) :
  test r s = true <-> Matches r s.
Proof.
  revert r; induction s as [|c s IH]; intros r; simpl.
  - apply nullable_Matches.
  - rewrite IH. apply deriv_Matches.
Qed.

(** [[p]+] matches the non-empty strings made of characters of the class. *)
Lemma Matches_Star_Class (p : ascii -> bool) (s : jsstring) :
  Matches (Star (Class p)) s <-> Forall (fun c => p c = true) s.
Proof.
  split.
  - intros H. remember (Star (Class p)) as r eqn:Er.
    induction H as [| | | | | |r0 s1 s2 H1 _ H2 IH2]; try discriminate.
    + constructor.
    + injection Er as ->. inversion H1; subst. simpl. constructor; auto.
  - induction 1 as [|c s Hc _ IH].
    + constructor.
    + apply (MStarCons (s1 := [c])); [now constructor | assumption].
Qed.

Lemma Matches_Plus_Class (p : ascii -> bool) (s : jsstring) :
  Matches (Plus (Class p)) s <-> s <> [] /\ Forall (fun c => p c = true) s.
Proof.
  unfold Plus. split.
  - inversion 1 as [| |? ? s1 s2 H1 H2| | | |]; subst.
    inversion H1; subst. simpl. split; [discriminate|].
    constructor; [assumption | now apply Matches_Star_Class].
  - intros [Hne F]. destruct s as [|c s]; [congruence|].
    inversion F; subst.
    apply (MSeq (s1 := [c])); [now constructor | now apply Matches_Star_Class].
Qed.

Lemma Matches_Chr (c : ascii) (s : jsstring) : Matches (Chr c) s <-> s = [c].
Proof.
  unfold Chr. split.
  - inversion 1 as [|? d E| | | | |]; subst. apply Ascii.eqb_eq in E. now subst.
  - intros ->. constructor. apply Ascii.eqb_refl.
Qed.

Lemma Matches_Seq (r1 r2 : regexp) (s : jsstring) :
  Matches (Seq r1 r2) s <-> exists s1 s2, s = s1 ++ s2 /\ Matches r1 s1 /\ Matches r2 s2.
Proof.
  split.
  - inversion 1; subst. eauto.
  - intros (s1 & s2 & -> & H1 & H2). now constructor.
Qed.

End RegExpFacts.

(** ** Structural validation *)

Section ValidationFacts.
Import JsString RegExp Validation Spec.

Lemma emailRegex_shape (s : jsstring) : Matches emailRegex s <-> EmailShape s.
Proof.
  unfold emailRegex, EmailShape, EmailPart. split.
  - intros H.
    apply Matches_Seq in H as (l & r1 & -> & Hl & H).
    apply Matches_Seq in H as (at' & r2 & -> & Hat & H).
    apply Matches_Seq in H as (d & r3 & -> & Hd & H).
    apply Matches_Seq in H as (dot & t & -> & Hdot & Ht).
    apply Matches_Chr in Hat, Hdot. subst at' dot.
    apply Matches_Plus_Class in Hl, Hd, Ht.
    now exists l, d, t.
  - intros (l & d & t & -> & Hl & Hd & Ht).
    apply Matches_Plus_Class in Hl, Hd, Ht.
    repeat (apply MSeq; try assumption); now apply Matches_Chr.
Qed.

Lemma isValidEmail_shape (email : jsstring) :
  isValidEmail email = true <-> EmailShape (trim email).
Proof.
  unfold isValidEmail. rewrite test_Matches. apply emailRegex_shape.
Qed.

Lemma nameError_None (name : jsstring) :
  nameError name = None <-> 2 <= length (trim name) <= 50.
Proof.
  unfold nameError, length.
  destruct (trim name) as [|c t]; simpl truthy; simpl negb; cbv iota.
  - simpl. split; [discriminate | lia].
  - destruct (Nat.ltb_spec (List.length (c :: t)) 2);
      [split; [discriminate | lia]|].
    destruct (Nat.ltb_spec 50 (List.length (c :: t)));
      [split; [discriminate | lia]|].
    split; [lia | reflexivity].
Qed.

Lemma nameError_required (name : jsstring) :
  nameError name = Some (str "Name is required") <-> trim name = [].
Proof.
  unfold nameError, length.
  destruct (trim name) as [|c t]; simpl truthy; simpl negb; cbv iota.
  - split; reflexivity.
  - destruct (Nat.ltb_spec (List.length (c :: t)) 2);
      [split; discriminate|].
    destruct (Nat.ltb_spec 50 (List.length (c :: t))); split; discriminate.
Qed.

Lemma emailError_None (email : jsstring) :
  emailError email = None <-> isValidEmail email = true.
Proof.
  unfold emailError.
  destruct (isValidEmail email) eqn:V; destruct (trim email) as [|c t] eqn:Et;
    cbn [truthy negb]; try (split; congruence).
  unfold isValidEmail in V. rewrite Et in V. discriminate.
Qed.

Lemma courseIdError_None (courseId : jsstring) :
  courseIdError courseId = None <-> courseId <> [] /\ courseId <> str "0".
Proof.
  unfold courseIdError.
  destruct (eqb courseId (str "0")) eqn:E.
  - apply eqb_eq in E. rewrite orb_true_r. split; [discriminate | intros [_ H]; congruence].
  - apply eqb_neq in E. rewrite orb_false_r.
    destruct courseId as [|c t]; cbn [truthy negb].
    + split; [discriminate | intros [H _]; congruence].
    + split; [intros _; split; [discriminate | assumption] | reflexivity].
Qed.

Lemma hasValidationErrors_false (errors : ValidationErrors.ValidationErrors) :
  hasValidationErrors errors = false <-> errors = noErrors.
Proof.
  destruct errors as [[n|] [e|] [c|]]; cbv; split; congruence.
Qed.

Lemma validateStudent_noErrors (formData : StudentFormData.StudentFormData) :
  validateStudent formData = noErrors <->
  nameError (StudentFormData.name formData) = None
  /\ emailError (StudentFormData.email formData) = None
  /\ courseIdError (StudentFormData.courseId formData) = None.
Proof.
  unfold validateStudent, noErrors. split.
  - intros H. injection H as -> -> ->. auto.
  - intros (-> & -> & ->). reflexivity.
Qed.

End ValidationFacts.

(** ** The entity store *)

Section StoreFacts.
Import JsString StudentContext Spec.

Lemma Subsequence_refl {A : Type} (l : list A) : Subsequence l l.
Proof. induction l; constructor; assumption. Qed.

Lemma filter_Subsequence {A : Type} (f : A -> bool) (l : list A) :
  Subsequence (filter f l) l.
Proof.
  induction l as [|x l IH]; simpl; [constructor|].
  destruct (f x); constructor; assumption.
Qed.

Lemma Subsequence_In {A : Type} (l1 l2 : list A) (x : A) :
  Subsequence l1 l2 -> In x l1 -> In x l2.
Proof.
  induction 1 as [|y l1 l2 _ IH|y l1 l2 _ IH]; simpl; intuition.
Qed.

(** A filter that accepts inside another one yields a subsequence of it. *)
Lemma filter_Subsequence_filter {A : Type} (f g : A -> bool) (l : list A) :
  (forall x, In x l -> f x = true -> g x = true) ->
  Subsequence (filter f l) (filter g l).
Proof.
  induction l as [|x l IH]; simpl; intros H; [constructor|].
  assert (IH' : Subsequence (filter f l) (filter g l)) by (apply IH; auto).
  destruct (f x) eqn:F.
  - rewrite (H x (or_introl eq_refl) F). now constructor.
  - destruct (g x); [now constructor | assumption].
Qed.

Lemma filter_Restriction {A : Type} (f : A -> bool) (P : A -> Prop) (l : list A) :
  (forall x, f x = true <-> P x) -> Restriction P l (filter f l).
Proof.
  intros H. induction l as [|x l IH]; simpl; [constructor|].
  destruct (f x) eqn:F.
  - apply RKeep; [now apply H | assumption].
  - apply RDrop; [|assumption]. rewrite <- H. congruence.
Qed.

Lemma includes_ContainsIgnoringCase (s t : jsstring) :
  includes (toLowerCase s) (toLowerCase t) = true <-> ContainsIgnoringCase s t.
Proof.
  rewrite includes_factor. unfold ContainsIgnoringCase. split.
  - intros (a & b & E). apply toLowerCase_factor in E as (a' & u' & b' & E & Eu).
    now exists a', u', b'.
  - intros (a & u & b & -> & Eu).
    exists (toLowerCase a), (toLowerCase b).
    now rewrite !toLowerCase_app, Eu.
Qed.

Lemma matchesSearch_spec (state : StudentState) (r : Student.Student) :
  matchesSearch state r = true <-> SearchPredicate state r.
Proof.
  unfold matchesSearch, SearchPredicate.
  rewrite orb_true_iff, !includes_ContainsIgnoringCase. split.
  - intros [H|H]; auto.
  - intros [E|[H|H]]; auto.
    left. rewrite E. now exists [], [], (Student.name r).
Qed.

Lemma matchesCourse_spec (state : StudentState) (r : Student.Student) :
  matchesCourse state r = true <-> CoursePredicate state r.
Proof.
  unfold matchesCourse, CoursePredicate.
  destruct (selectedCourseFilter state) as [c|].
  - rewrite Z.eqb_eq. split.
    + intros ->. now right.
    + intros [H|H]; congruence.
  - split; auto.
Qed.

Lemma visible_spec (state : StudentState) (r : Student.Student) :
  matchesSearch state r && matchesCourse state r = true <-> Visible state r.
Proof.
  unfold Visible. now rewrite andb_true_iff, matchesSearch_spec, matchesCourse_spec.
Qed.

(** What contains a term contains its trimmed form. *)
Lemma ContainsIgnoringCase_trim (s t : jsstring) :
  ContainsIgnoringCase s t -> ContainsIgnoringCase s (trim t).
Proof.
  intros (a & u & b & -> & Eu).
  destruct (trim_split t) as (w1 & w2 & Et & _ & _).
  rewrite Et, !toLowerCase_app in Eu.
  apply toLowerCase_factor in Eu as (a' & u' & b' & -> & Eu').
  exists (a ++ a'), u', (b' ++ b). split; [|assumption].
  now rewrite <- !app_assoc.
Qed.

Lemma matchesSearch_setSearchTerm (state : StudentState) (term : jsstring)
      (r : Student.Student) :
  matchesSearch (setSearchTerm term state) r = true
  <-> ContainsIgnoringCase (Student.name r) term
      \/ ContainsIgnoringCase (Student.email r) term.
Proof.
  unfold matchesSearch. cbn [setSearchTerm dispatch studentReducer searchTerm].
  now rewrite orb_true_iff, !includes_ContainsIgnoringCase.
Qed.

(** Replacing the records that carry the id of the payload by the payload
    leaves the sequence of ids as it was. *)
Lemma update_ids (state : StudentState) (payload : Student.Student) :
  ids (studentReducer state (UPDATE_STUDENT payload)) = ids state.
Proof.
  unfold ids. simpl. induction (students state) as [|r l IH]; simpl; [reflexivity|].
  rewrite IH. destruct (eqb (Student.id r) (Student.id payload)) eqn:E; [|reflexivity].
  apply eqb_eq in E. now rewrite E.
Qed.

(** UPDATE_STUDENT works position by position. *)
Lemma update_in_place (state : StudentState) (payload : Student.Student) (i : nat) :
  nth_error (students (studentReducer state (UPDATE_STUDENT payload))) i
  = option_map (fun r => if eqb (Student.id r) (Student.id payload) then payload else r)
               (nth_error (students state) i).
Proof. simpl. apply nth_error_map. Qed.

Lemma update_unknown (l : list Student.Student) (payload : Student.Student) :
  ~ In (Student.id payload) (map Student.id l) ->
  map (fun student => if eqb (Student.id student) (Student.id payload)
                      then payload else student) l = l.
Proof.
  induction l as [|r l IH]; simpl; intros H; [reflexivity|].
  destruct (eqb (Student.id r) (Student.id payload)) eqn:E.
  - apply eqb_eq in E. tauto.
  - rewrite IH; [reflexivity | tauto].
Qed.

Lemma delete_unknown (l : list Student.Student) (id : jsstring) :
  ~ In id (map Student.id l) ->
  filter (fun student => negb (eqb (Student.id student) id)) l = l.
Proof.
  induction l as [|r l IH]; simpl; intros H; [reflexivity|].
  destruct (eqb (Student.id r) id) eqn:E; simpl.
  - apply eqb_eq in E. tauto.
  - rewrite IH; [reflexivity | tauto].
Qed.

Lemma delete_ids (state : StudentState) (id : jsstring) :
  ids (studentReducer state (DELETE_STUDENT id))
  = filter (fun i => negb (eqb i id)) (ids state).
Proof.
  unfold ids. simpl. induction (students state) as [|r l IH]; simpl; [reflexivity|].
  destruct (eqb (Student.id r) id); simpl; now rewrite IH.
Qed.

Lemma add_ids (state : StudentState) (payload : Student.Student) :
  ids (studentReducer state (ADD_STUDENT payload)) = ids state ++ [Student.id payload].
Proof. unfold ids. simpl. apply map_app. Qed.

Lemma NoDup_snoc {A : Type} (l : list A) (x : A) :
  NoDup l -> ~ In x l -> NoDup (l ++ [x]).
Proof.
  induction 1 as [|y l Hy Hl IH]; simpl; intros Hx.
  - constructor; [tauto | constructor].
  - constructor.
    + rewrite in_app_iff. simpl. intros [H|[H|[]]]; [tauto | subst; tauto].
    + apply IH. tauto.
Qed.

Lemma NoDup_filter_keep {A : Type} (f : A -> bool) (l : list A) :
  NoDup l -> NoDup (filter f l).
Proof.
  induction 1 as [|y l Hy Hl IH]; simpl; [constructor|].
  destruct (f y); [|assumption].
  constructor; [|assumption]. rewrite filter_In. tauto.
Qed.

(** One operation with a fresh id keeps the ids distinct. *)
Lemma perform_NoDup (state : StudentState) (op : Operation) :
  NoDup (ids state) -> freshIds state [op] = true -> NoDup (ids (perform state op)).
Proof.
  intros N F. destruct op as [d uuid n1 n2|student now|id]; simpl in *.
  - unfold addStudent, dispatch. rewrite add_ids. apply NoDup_snoc; [assumption|].
    simpl. rewrite andb_true_r, negb_true_iff in F.
    intros H. apply arrayIncludes_In in H. congruence.
  - unfold updateStudent, dispatch. now rewrite update_ids.
  - unfold deleteStudent, dispatch. rewrite delete_ids. now apply NoDup_filter_keep.
Qed.

Lemma performAll_NoDup (ops : list Operation) (state : StudentState) :
  NoDup (ids state) -> freshIds state ops = true -> NoDup (ids (performAll ops state)).
Proof.
  revert state. induction ops as [|op ops IH]; intros state N F; simpl; [assumption|].
  simpl in F. apply andb_true_iff in F as [F1 F2].
  apply IH; [|assumption].
  apply perform_NoDup; [assumption|]. simpl. now rewrite F1.
Qed.

End StoreFacts.

(** ** The debounce hook *)

Section DebounceFacts.
Import UseDebounce.
Local Open Scope Z_scope.
Variable T : Type.
Variable sameValue : T -> T -> bool.











(** *** The values the hook returns *)







End DebounceFacts.

(** ** Remote validation and the submission of the form *)

Section RemoteFacts.
Import JsString MockApi StudentForm.

Lemma validateStudentOnServer_run (studentData : StudentData.StudentData) (w : World) :
  validateStudentOnServer studentData w
  = if arrayIncludes existingEmails (toLowerCase (StudentData.email studentData))
    then (Rejected duplicateEmail,
          {| console := console w
                        ++ [str "1. Validation started (synchronous)";
                            str "2. Microtask executed before setTimeout";
                            str "3. Network delay completed (after timer)"];
             store := store w |})
    else (Resolved tt,
          {| console := console w
                        ++ [str "1. Validation started (synchronous)";
                            str "2. Microtask executed before setTimeout";
                            str "3. Network delay completed (after timer)";
                            str "4. Validation completed successfully"];
             store := store w |}).
Proof.
  unfold validateStudentOnServer, await, console_log, simulateNetworkDelay, resolve,
    throwError.
  cbn [console store].
  destruct (arrayIncludes existingEmails (toLowerCase (StudentData.email studentData)));
    cbn [console store]; repeat rewrite <- app_assoc; reflexivity.
Qed.

(** A new record whose form passes the structural phase is created unless
    the remote phase rejects the trimmed address. *)
Lemma handleSubmit_create (parseInt : jsstring -> Z)
      (formData : StudentFormData.StudentFormData) (randomImage : jsstring) (w : World) :
  Validation.validateStudent formData = Validation.noErrors ->
  fst (handleSubmit parseInt formData None false randomImage w)
  = if arrayIncludes existingEmails
         (toLowerCase (trim (StudentFormData.email formData)))
    then Resolved (Failed duplicateEmail)
    else Resolved (Created (preparedData parseInt formData randomImage)).
Proof.
  intros V. unfold handleSubmit.
  rewrite (proj2 (hasValidationErrors_false _) V).
  unfold tryCatch, await. rewrite validateStudentOnServer_run.
  unfold serverData. cbn [StudentData.email].
  destruct (arrayIncludes existingEmails
              (toLowerCase (trim (StudentFormData.email formData)))); reflexivity.
Qed.

End RemoteFacts.

(* ================================================================= *)
(** * The claims *)

Section Claims.
Import JsString StudentContext Spec.

(** C1. The projection [getFilteredStudents] is the record set restricted to
    the records that satisfy both the search predicate (the term is empty, or
    the name or the email contains it up to letter case) and the course
    predicate (no course is selected, or the selected one is the record's),
    in the order of the record set. On the records Ann (course 1) and Bob
    (course 2): the term "an" without course filter leaves Ann alone, the
    empty term with course 2 leaves Bob alone, the term "z" leaves nothing. *)
Theorem C1_projection_is_filtered_record_set :
  (forall state : StudentState,
      Restriction (Visible state) (students state) (getFilteredStudents state)
      /\ (forall r, In r (getFilteredStudents state)
                    <-> In r (students state) /\ Visible state r)
      /\ Subsequence (getFilteredStudents state) (students state))
  /\ map Student.name
         (getFilteredStudents
            (setCourseFilter None (setSearchTerm (str "an") Sample.annAndBob)))
     = [str "Ann"]
  /\ map Student.name
         (getFilteredStudents
            (setCourseFilter (Some 2%Z) (setSearchTerm (str "") Sample.annAndBob)))
     = [str "Bob"]
  /\ getFilteredStudents (setSearchTerm (str "z") Sample.annAndBob) = [].
Proof.
  split; [|repeat split; vm_compute; reflexivity].
  intros state. unfold getFilteredStudents. split; [|split].
  - apply filter_Restriction. intros r. apply visible_spec.
  - intros r. rewrite filter_In, visible_spec. reflexivity.
  - apply filter_Subsequence.
Qed.

(** C2. [validateStudent] returns the empty error map exactly when the
    trimmed name has between 2 and 50 characters, the address passes the
    shape check [local@domain.tld], and the course id is neither absent nor
    the sentinel "0". Field by field, a key is absent exactly when its field
    passes, and the name carries "Name is required" exactly when its trimmed
    form is empty, as for the empty name. *)
Theorem C2_structural_validation :
  (forall formData : StudentFormData.StudentFormData,
      let errors := Validation.validateStudent formData in
      (errors = Validation.noErrors
       <-> (2 <= length (trim (StudentFormData.name formData)) <= 50
            /\ EmailShape (trim (StudentFormData.email formData))
            /\ StudentFormData.courseId formData <> []
            /\ StudentFormData.courseId formData <> str "0"))
      /\ (Validation.hasValidationErrors errors = false <-> errors = Validation.noErrors)
      /\ (ValidationErrors.name errors = None
          <-> 2 <= length (trim (StudentFormData.name formData)) <= 50)
      /\ (ValidationErrors.email errors = None
          <-> Validation.isValidEmail (StudentFormData.email formData) = true)
      /\ (ValidationErrors.courseId errors = None
          <-> StudentFormData.courseId formData <> []
              /\ StudentFormData.courseId formData <> str "0")
      /\ (ValidationErrors.name errors = Some (str "Name is required")
          <-> trim (StudentFormData.name formData) = []))
  /\ ValidationErrors.name (Validation.validateStudent (Sample.form "" "a@b.c" "1"))
     = Some (str "Name is required").
Proof.
  split; [|reflexivity].
  intros formData errors. subst errors.
  split; [|split; [|split; [|split; [|split]]]].
  - rewrite validateStudent_noErrors, nameError_None, emailError_None,
      courseIdError_None, isValidEmail_shape. tauto.
  - apply hasValidationErrors_false.
  - apply nameError_None.
  - apply emailError_None.
  - apply courseIdError_None.
  - apply nameError_required.
Qed.

(** C3. [validateStudentOnServer] rejects, with the one duplicate-email
    error, exactly when the lower-cased address it is given is in the fixed
    list of existing addresses, and resolves otherwise; "test@example.com"
    is rejected; the store of the world is the same before and after. *)
Theorem C3_remote_validation_denylist :
  (forall (studentData : StudentData.StudentData) (w : MockApi.World),
      (fst (MockApi.validateStudentOnServer studentData w)
       = MockApi.Rejected MockApi.duplicateEmail
       <-> In (toLowerCase (StudentData.email studentData)) MockApi.existingEmails)
      /\ (fst (MockApi.validateStudentOnServer studentData w) = MockApi.Resolved tt
          <-> ~ In (toLowerCase (StudentData.email studentData)) MockApi.existingEmails)
      /\ MockApi.store (snd (MockApi.validateStudentOnServer studentData w))
         = MockApi.store w)
  /\ (forall (name : jsstring) (courseId : Z) (profileImage : option jsstring)
             (w : MockApi.World),
         fst (MockApi.validateStudentOnServer
                {| StudentData.name := name;
                   StudentData.email := str "test@example.com";
                   StudentData.courseId := courseId;
                   StudentData.profileImage := profileImage |} w)
         = MockApi.Rejected MockApi.duplicateEmail).
Proof.
  split.
  - intros studentData w. rewrite validateStudentOnServer_run.
    rewrite <- arrayIncludes_In.
    destruct (arrayIncludes MockApi.existingEmails
                (toLowerCase (StudentData.email studentData))); simpl;
      repeat split; congruence.
  - intros name courseId profileImage w. now rewrite validateStudentOnServer_run.
Qed.

(** C4. When no record of the state carries the id, nothing changes: the
    UPDATE_STUDENT transition with a record of that id and the
    DELETE_STUDENT transition with that id return the state they were
    given, and so do the helpers [updateStudent] and [deleteStudent]. *)
Theorem C4_unknown_id_is_noop
        (state : StudentState) (student : Student.Student) (now : Z) (id : jsstring) :
  ~ In (Student.id student) (ids state) ->
  ~ In id (ids state) ->
  studentReducer state (UPDATE_STUDENT student) = state
  /\ updateStudent student now state = state
  /\ studentReducer state (DELETE_STUDENT id) = state
  /\ deleteStudent id state = state.
Proof.
  intros Hu Hd. unfold updateStudent, deleteStudent, dispatch, ids in *.
  destruct state as [l term course]; simpl in *.
  rewrite (update_unknown l student Hu).
  pose proof (update_unknown l (updatedStudent student now) Hu) as Hh.
  simpl in Hh. rewrite Hh.
  rewrite (delete_unknown l id Hd). auto.
Qed.

Lemma C4_unknown_id_is_noop_witness :
  studentReducer Sample.annAndBob (UPDATE_STUDENT Sample.paddedAnn) = Sample.annAndBob
  /\ updateStudent Sample.paddedAnn 5%Z Sample.annAndBob = Sample.annAndBob
  /\ studentReducer Sample.annAndBob (DELETE_STUDENT (str "9")) = Sample.annAndBob
  /\ deleteStudent (str "9") Sample.annAndBob = Sample.annAndBob.
Proof.
  apply (C4_unknown_id_is_noop Sample.annAndBob Sample.paddedAnn 5%Z (str "9")).
  - vm_compute. intros [H|[H|[]]]; discriminate.
  - vm_compute. intros [H|[H|[]]]; discriminate.
Defined.




(** C6, as the code has it. [addStudent] stamps the record with two
    successive reads of the clock: [createdAt] is the first and [updatedAt]
    the second, equal exactly when the two reads agree and in order exactly
    when the clock did not run backwards between them. [updateStudent] puts
    its payload in the place of the stored record of the same id, with
    [createdAt] as the payload has it and [updatedAt] the read of the clock:
    the new [updatedAt] is at or above [createdAt] exactly when the payload's
    [createdAt] is not later than that read, at or above the [updatedAt] of
    the record it replaces exactly when the read is not earlier than that
    stamp, and strictly above it exactly when the clock has advanced past
    it. *)
Theorem C6_timestamps_follow_the_clock
        (state : StudentState) (studentData : StudentData.StudentData)
        (uuid : jsstring) (now1 now2 : Z)
        (i : nat) (r student : Student.Student) (now : Z) :
  nth_error (students state) i = Some r ->
  Student.id student = Student.id r ->
  (let new := newStudent studentData uuid now1 now2 in
   students (addStudent studentData uuid now1 now2 state) = students state ++ [new]
   /\ Student.createdAt new = now1
   /\ Student.updatedAt new = now2
   /\ (Student.createdAt new = Student.updatedAt new <-> now1 = now2)
   /\ ((Student.createdAt new <= Student.updatedAt new)%Z <-> (now1 <= now2)%Z))
  /\ (let r' := updatedStudent student now in
      nth_error (students (updateStudent student now state)) i = Some r'
      /\ Student.id r' = Student.id r
      /\ Student.createdAt r' = Student.createdAt student
      /\ Student.updatedAt r' = now
      /\ ((Student.createdAt r' <= Student.updatedAt r')%Z
          <-> (Student.createdAt student <= now)%Z)
      /\ ((Student.updatedAt r <= Student.updatedAt r')%Z
          <-> (Student.updatedAt r <= now)%Z)
      /\ ((Student.updatedAt r < Student.updatedAt r')%Z
          <-> (Student.updatedAt r < now)%Z)).
Proof.
  intros Hr Hid. split.
  - simpl. repeat split; auto.
  - cbv zeta. split.
    + unfold updateStudent, dispatch.
      rewrite update_in_place, Hr. cbn [option_map updatedStudent Student.id].
      now rewrite Hid, eqb_refl.
    + simpl. repeat split; auto.
Qed.

Lemma C6_timestamps_follow_the_clock_witness :
  nth_error (students (updateStudent Sample.anna 7 Sample.annAndBob)) 0
  = Some (updatedStudent Sample.anna 7)
  /\ (Student.updatedAt Sample.ann < Student.updatedAt (updatedStudent Sample.anna 7))%Z.
Proof.
  destruct (C6_timestamps_follow_the_clock Sample.annAndBob
              (Sample.draft "Cy" "c@x.com" 1) (str "3") 3 4
              0 Sample.ann Sample.anna 7 eq_refl eq_refl)
    as [_ (Hr & _ & _ & _ & _ & _ & Hlt)].
  split; [exact Hr | apply Hlt; reflexivity].
Defined.

(** C6 fails as stated. A record created when both reads of the clock give
    1000 and updated while the clock still reads 1000 keeps its [updatedAt]:
    the update is not strictly later. And when the clock ticks between the
    two reads of [addStudent], the new record has [createdAt <> updatedAt]. *)
Lemma C6_counterexample :
  let r := newStudent (Sample.draft "Ann" "a@x.com" 1) (str "1") 1000 1000 in
  let state := addStudent (Sample.draft "Ann" "a@x.com" 1) (str "1") 1000 1000 initialState in
  In r (students state)
  /\ students (updateStudent r 1000 state) = [updatedStudent r 1000]
  /\ ~ (Student.updatedAt r < Student.updatedAt (updatedStudent r 1000))%Z
  /\ Student.createdAt (newStudent (Sample.draft "Ann" "a@x.com" 1) (str "1") 1000 1001)
     <> Student.updatedAt (newStudent (Sample.draft "Ann" "a@x.com" 1) (str "1") 1000 1001).
Proof.
  simpl. repeat split; [now left | lia | discriminate].
Qed.

(** C7. Starting from the empty store, a sequence of Add, Update and Delete
    in which every Add draws an id that no record carries at that time
    leaves the ids of the record set pairwise distinct. The UPDATE_STUDENT
    transition leaves the sequence of ids as it was: the record that
    replaces a matched one carries its id. *)
Theorem C7_ids_unique_and_stable (ops : list Operation) :
  freshIds initialState ops = true ->
  NoDup (ids (performAll ops initialState))
  /\ (forall (state : StudentState) (payload : Student.Student),
         ids (studentReducer state (UPDATE_STUDENT payload)) = ids state)
  /\ (forall (state : StudentState) (student : Student.Student) (now : Z),
         ids (updateStudent student now state) = ids state).
Proof.
  intros F. split; [|split].
  - apply performAll_NoDup; [constructor | assumption].
  - apply update_ids.
  - intros state student now. apply update_ids.
Qed.

Lemma C7_ids_unique_and_stable_witness :
  NoDup (ids (performAll
                [Add (Sample.draft "Ann" "a@x.com" 1) (str "1") 10 10;
                 Add (Sample.draft "Bob" "b@x.com" 2) (str "2") 20 21;
                 Update Sample.bob 30;
                 Delete (str "1");
                 Add (Sample.draft "Cy" "c@x.com" 1) (str "1") 40 40]
                initialState)).
Proof.
  apply (C7_ids_unique_and_stable
           [Add (Sample.draft "Ann" "a@x.com" 1) (str "1") 10 10;
            Add (Sample.draft "Bob" "b@x.com" 2) (str "2") 20 21;
            Update Sample.bob 30;
            Delete (str "1");
            Add (Sample.draft "Cy" "c@x.com" 1) (str "1") 40 40]).
  vm_compute. reflexivity.
Defined.

(** C8, as the code has it. The search term is used as it was typed, blanks
    included, and so are the stored fields: a record is in the projection for
    a term exactly when its stored name or its stored email contains the whole
    term up to letter case and its course passes the filter. Hence the
    projection for a term is a subsequence of the projection for the trimmed
    term. A name stored as " Ann" is found by the term " a", which matches at
    its leading blank. *)
Theorem C8_search_term_is_not_trimmed :
  (forall (state : StudentState) (term : jsstring),
      (forall r, In r (getFilteredStudents (setSearchTerm term state))
                 <-> In r (students state)
                     /\ (ContainsIgnoringCase (Student.name r) term
                         \/ ContainsIgnoringCase (Student.email r) term)
                     /\ CoursePredicate state r)
      /\ Subsequence (getFilteredStudents (setSearchTerm term state))
                     (getFilteredStudents (setSearchTerm (trim term) state)))
  /\ getFilteredStudents
       (setSearchTerm (str " a") (dispatch (ADD_STUDENT Sample.paddedAnn) Sample.annAndBob))
     = [Sample.paddedAnn].
Proof.
  split; [|vm_compute; reflexivity].
  intros state term. split.
  - intros r. unfold getFilteredStudents.
    rewrite filter_In, andb_true_iff, matchesSearch_setSearchTerm, matchesCourse_spec.
    reflexivity.
  - unfold getFilteredStudents.
    change (students (setSearchTerm (trim term) state))
      with (students (setSearchTerm term state)).
    apply filter_Subsequence_filter. intros r _.
    rewrite !andb_true_iff, !matchesSearch_setSearchTerm.
    intros [[H|H] Hc]; (split; [|exact Hc]);
      [left | right]; now apply ContainsIgnoringCase_trim.
Qed.

(** C8 fails as stated: with the records Ann and Bob, the term " an" finds
    nothing and its trimmed form "an" finds Ann. *)
Lemma C8_counterexample :
  trim (str " an") = str "an"
  /\ getFilteredStudents (setSearchTerm (str " an") Sample.annAndBob) = []
  /\ getFilteredStudents (setSearchTerm (trim (str " an")) Sample.annAndBob) = [Sample.ann]
  /\ getFilteredStudents (setSearchTerm (str " an") Sample.annAndBob)
     <> getFilteredStudents (setSearchTerm (trim (str " an")) Sample.annAndBob).
Proof.
  repeat split; try (vm_compute; reflexivity).
  vm_compute. discriminate.
Qed.

(** C9, as the code has it. The record set changes through four transitions:
    ADD_STUDENT appends its payload; UPDATE_STUDENT puts its payload at every
    position that held a record of its id and leaves every other position as
    it was; DELETE_STUDENT keeps exactly the records of the other ids, in
    their order; and LOAD_STUDENTS puts its payload in place of the whole
    record set. SET_SEARCH_TERM and SET_COURSE_FILTER leave the record set
    alone, and no transition but those two touches the search term and the
    filter. *)
Theorem C9_transitions_on_the_record_set (state : StudentState) (action : StudentAction) :
  match action with
  | ADD_STUDENT payload =>
      students (studentReducer state action) = students state ++ [payload]
  | UPDATE_STUDENT payload =>
      ids (studentReducer state action) = ids state
      /\ List.length (students (studentReducer state action))
         = List.length (students state)
      /\ (forall i : nat,
             nth_error (students (studentReducer state action)) i
             = option_map (fun r => if eqb (Student.id r) (Student.id payload)
                                    then payload else r)
                          (nth_error (students state) i))
  | DELETE_STUDENT id =>
      Restriction (fun r => Student.id r <> id)
                  (students state) (students (studentReducer state action))
      /\ Subsequence (students (studentReducer state action)) (students state)
      /\ (forall r, In r (students (studentReducer state action))
                    <-> In r (students state) /\ Student.id r <> id)
  | LOAD_STUDENTS payload =>
      students (studentReducer state action) = payload
  | SET_SEARCH_TERM _ | SET_COURSE_FILTER _ =>
      students (studentReducer state action) = students state
  end
  /\ match action with
     | SET_SEARCH_TERM term =>
         searchTerm (studentReducer state action) = term
         /\ selectedCourseFilter (studentReducer state action) = selectedCourseFilter state
     | SET_COURSE_FILTER courseId =>
         searchTerm (studentReducer state action) = searchTerm state
         /\ selectedCourseFilter (studentReducer state action) = courseId
     | _ =>
         searchTerm (studentReducer state action) = searchTerm state
         /\ selectedCourseFilter (studentReducer state action) = selectedCourseFilter state
     end.
Proof.
  destruct action as [p|p|id|term|c|l]; (split; [|split; reflexivity]);
    try reflexivity.
  - split; [apply update_ids | split].
    + simpl. apply length_map.
    + intros i. apply update_in_place.
  - split; [|split; [apply filter_Subsequence|]].
    + simpl. apply filter_Restriction. intros r.
      now rewrite negb_true_iff, eqb_neq.
    + simpl. intros r. rewrite filter_In, negb_true_iff, eqb_neq. reflexivity.
Qed.

(** C9 fails as stated: LOAD_STUDENTS, an action of the reducer that the
    context hands out with [dispatch], brings a record into the empty store
    without any Add, and empties a store without any Delete. *)
Lemma C9_counterexample :
  students (dispatch (LOAD_STUDENTS [Sample.ann]) initialState) = [Sample.ann]
  /\ students initialState = []
  /\ students (dispatch (LOAD_STUDENTS []) Sample.annAndBob) = []
  /\ students Sample.annAndBob = [Sample.ann; Sample.bob].
Proof. repeat split. Qed.

(** C10, as the code has it. The shape check trims its argument, so it gives
    the same answer on an address and on its trimmed form, and the structural
    phase accepts " a@b.c ". [validateStudentOnServer] does not trim what it
    is given (it resolves on a padded " test@example.com "), but the form
    trims the address before it calls it: for a new record that passes the
    structural phase, the remote phase compares the lower-cased trimmed
    address with the list of existing ones, and the data handed over for
    storage carry the trimmed address. *)
Theorem C10_email_is_trimmed_before_use :
  (forall email : jsstring,
      Validation.isValidEmail email = Validation.isValidEmail (trim email)
      /\ Validation.emailError email = Validation.emailError (trim email))
  /\ ValidationErrors.email (Validation.validateStudent (Sample.form "Ann" " a@b.c " "1"))
     = None
  /\ fst (MockApi.validateStudentOnServer
            (Sample.draft "Ann" " test@example.com " 1) Sample.emptyWorld)
     = MockApi.Resolved tt
  /\ (forall (parseInt : jsstring -> Z) (formData : StudentFormData.StudentFormData)
             (randomImage : jsstring) (w : MockApi.World),
         Validation.validateStudent formData = Validation.noErrors ->
         (fst (StudentForm.handleSubmit parseInt formData None false randomImage w)
          = MockApi.Resolved (StudentForm.Failed MockApi.duplicateEmail)
          <-> In (toLowerCase (trim (StudentFormData.email formData)))
                 MockApi.existingEmails)
         /\ (fst (StudentForm.handleSubmit parseInt formData None false randomImage w)
             = MockApi.Resolved
                 (StudentForm.Created (StudentForm.preparedData parseInt formData randomImage))
             <-> ~ In (toLowerCase (trim (StudentFormData.email formData)))
                      MockApi.existingEmails)
         /\ StudentData.email (StudentForm.preparedData parseInt formData randomImage)
            = trim (StudentFormData.email formData)
         /\ (forall (uuid : jsstring) (now1 now2 : Z) (state : StudentState),
                map Student.email
                    (students
                       (StudentForm.commit
                          (StudentForm.Created
                             (StudentForm.preparedData parseInt formData randomImage))
                          uuid now1 now2 state))
                = map Student.email (students state)
                  ++ [trim (StudentFormData.email formData)])).
Proof.
  split; [|split; [|split]].
  - intros email.
    assert (E : Validation.isValidEmail email = Validation.isValidEmail (trim email))
      by (unfold Validation.isValidEmail; now rewrite trim_idem).
    split; [exact E|].
    unfold Validation.emailError. now rewrite trim_idem, E.
  - vm_compute. reflexivity.
  - vm_compute. reflexivity.
  - intros parseInt formData randomImage w V.
    rewrite (handleSubmit_create parseInt formData randomImage w V).
    rewrite <- arrayIncludes_In.
    assert (Hstore : forall (uuid : jsstring) (now1 now2 : Z) (state : StudentState),
               map Student.email
                   (students
                      (StudentForm.commit
                         (StudentForm.Created
                            (StudentForm.preparedData parseInt formData randomImage))
                         uuid now1 now2 state))
               = map Student.email (students state)
                 ++ [trim (StudentFormData.email formData)]).
    { intros uuid now1 now2 state. simpl. now rewrite map_app. }
    destruct (arrayIncludes MockApi.existingEmails
                (toLowerCase (trim (StudentFormData.email formData))));
      repeat split; try congruence; apply Hstore.
Qed.

Lemma C10_email_is_trimmed_before_use_witness :
  fst (StudentForm.handleSubmit Sample.parseCourse1 (Sample.form "Ann" " a@b.c " "1")
         None false (str "img") Sample.emptyWorld)
  = MockApi.Resolved
      (StudentForm.Created
         (StudentForm.preparedData Sample.parseCourse1 (Sample.form "Ann" " a@b.c " "1")
            (str "img")))
  /\ StudentData.email
       (StudentForm.preparedData Sample.parseCourse1 (Sample.form "Ann" " a@b.c " "1")
          (str "img"))
     = str "a@b.c".
Proof.
  destruct (proj2 (proj2 (proj2 C10_email_is_trimmed_before_use))
              Sample.parseCourse1 (Sample.form "Ann" " a@b.c " "1") (str "img")
              Sample.emptyWorld eq_refl) as (_ & Hc & He & _).
  split.
  - apply Hc. vm_compute. intros [H|[H|[]]]; discriminate.
  - rewrite He. vm_compute. reflexivity.
Defined.

(** C10 fails as stated on its last part: it is the trimmed address that the
    remote phase sees and that is stored. The padded " test@example.com " is
    not in the list of existing addresses once lower-cased, yet the form
    rejects it as a duplicate; and the padded " a@b.c " is stored as "a@b.c". *)
Lemma C10_counterexample :
  Validation.validateStudent (Sample.form "Ann" " test@example.com " "1")
  = Validation.noErrors
  /\ arrayIncludes MockApi.existingEmails (toLowerCase (str " test@example.com ")) = false
  /\ fst (StudentForm.handleSubmit Sample.parseCourse1
            (Sample.form "Ann" " test@example.com " "1") None false (str "img")
            Sample.emptyWorld)
     = MockApi.Resolved (StudentForm.Failed MockApi.duplicateEmail)
  /\ (exists studentData,
         fst (StudentForm.handleSubmit Sample.parseCourse1
                (Sample.form "Ann" " a@b.c " "1") None false (str "img")
                Sample.emptyWorld)
         = MockApi.Resolved (StudentForm.Created studentData)
         /\ StudentData.email studentData = str "a@b.c"
         /\ StudentData.email studentData <> str " a@b.c ").
Proof.
  split; [vm_compute; reflexivity|].
  split; [vm_compute; reflexivity|].
  split; [vm_compute; reflexivity|].
  eexists. split; [vm_compute; reflexivity|].
  split; [reflexivity | discriminate].
Qed.

End Claims.

(* ================================================================= *)
(** * Further properties of the store *)

Section StoreExtras.
Import JsString StudentContext Spec.

Lemma lowerChar_idem (c : ascii) : lowerChar (lowerChar c) = lowerChar c.
Proof.
  destruct c as [[] [] [] [] [] [] [] []]; reflexivity.
Qed.

Lemma toLowerCase_idem (s : jsstring) : toLowerCase (toLowerCase s) = toLowerCase s.
Proof.
  unfold toLowerCase. rewrite map_map. apply map_ext. apply lowerChar_idem.
Qed.

(** What contains a term contains every factor of the term. *)
Lemma ContainsIgnoringCase_factor (s a t b : jsstring) :
  ContainsIgnoringCase s (a ++ t ++ b) -> ContainsIgnoringCase s t.
Proof.
  intros (x & u & y & -> & Eu).
  rewrite !toLowerCase_app in Eu.
  apply toLowerCase_factor in Eu as (a' & u' & b' & -> & Eu').
  exists (x ++ a'), u', (b' ++ y). split; [|assumption].
  now rewrite <- !app_assoc.
Qed.

(** X1. After [deleteStudent id] no record of the store carries [id], so
    none shows in the projection, whatever the search term and the course
    filter; the projection after the deletion is the projection before it
    without the records of that id. *)
Theorem delete_then_project (state : StudentState) (id : jsstring) :
  ~ In id (ids (deleteStudent id state))
  /\ Forall (fun r => Student.id r <> id) (getFilteredStudents (deleteStudent id state))
  /\ getFilteredStudents (deleteStudent id state)
     = filter (fun student => negb (eqb (Student.id student) id))
              (getFilteredStudents state).
Proof.
  assert (Hall : Forall (fun r => Student.id r <> id) (students (deleteStudent id state))).
  { apply Forall_forall. intros r Hr. simpl in Hr.
    apply filter_In in Hr as [_ Hr]. now apply eqb_neq, negb_true_iff. }
  split; [|split].
  - unfold ids. intros H. apply in_map_iff in H as (r & E & Hr).
    rewrite Forall_forall in Hall. now apply (Hall r Hr).
  - apply Forall_forall. intros r Hr. unfold getFilteredStudents in Hr.
    apply filter_In in Hr as [Hr _]. rewrite Forall_forall in Hall. now apply Hall.
  - unfold getFilteredStudents. simpl.
    induction (students state) as [|r l IH]; simpl; [reflexivity|].
    unfold matchesSearch, matchesCourse in *. simpl in *.
    destruct (eqb (Student.id r) id) eqn:E; simpl;
      destruct ((includes (toLowerCase (Student.name r)) (toLowerCase (searchTerm state))
                 || includes (toLowerCase (Student.email r)) (toLowerCase (searchTerm state)))
                && match selectedCourseFilter state with
                   | Some courseId => (Student.courseId r =? courseId)%Z
                   | None => true
                   end) eqn:V; simpl; rewrite ?E; simpl; now rewrite IH.
Qed.

(** X2. Adding a record and deleting its id gives the state that deleting
    that id alone gives; when the id is fresh this is the state before the
    addition. *)
Theorem add_then_delete_restores
        (state : StudentState) (studentData : StudentData.StudentData)
        (uuid : jsstring) (now1 now2 : Z) :
  ~ In uuid (ids state) ->
  deleteStudent uuid (addStudent studentData uuid now1 now2 state) = state
  /\ (forall other : StudentState,
         deleteStudent uuid (addStudent studentData uuid now1 now2 other)
         = deleteStudent uuid other).
Proof.
  intros F.
  assert (G : forall other : StudentState,
             deleteStudent uuid (addStudent studentData uuid now1 now2 other)
             = deleteStudent uuid other).
  { intros [l term course]. unfold deleteStudent, addStudent, dispatch. simpl.
    rewrite filter_app. simpl. rewrite eqb_refl. simpl. now rewrite app_nil_r. }
  split; [|exact G].
  rewrite G. unfold deleteStudent, dispatch, ids in *.
  destruct state as [l term course]. simpl in *. now rewrite delete_unknown.
Qed.

Lemma add_then_delete_restores_witness :
  deleteStudent (str "7")
    (addStudent (Sample.draft "Cy" "c@x.com" 1) (str "7") 5 5 Sample.annAndBob)
  = Sample.annAndBob.
Proof.
  apply (add_then_delete_restores Sample.annAndBob (Sample.draft "Cy" "c@x.com" 1)
           (str "7") 5 5).
  vm_compute. intros [H|[H|[]]]; discriminate.
Defined.

(** X3. The last update wins: two UPDATE_STUDENT transitions with payloads
    of the same id leave the state that the second alone leaves. Hence
    [updateStudent] called twice with the same record differs from one call
    by the time stamp only. *)
Theorem update_twice_is_last_update
        (state : StudentState) (p1 p2 : Student.Student) :
  Student.id p1 = Student.id p2 ->
  studentReducer (studentReducer state (UPDATE_STUDENT p1)) (UPDATE_STUDENT p2)
  = studentReducer state (UPDATE_STUDENT p2)
  /\ (forall (student : Student.Student) (now now' : Z),
         updateStudent student now' (updateStudent student now state)
         = updateStudent student now' state).
Proof.
  assert (G : forall q1 q2 : Student.Student,
             Student.id q1 = Student.id q2 ->
             studentReducer (studentReducer state (UPDATE_STUDENT q1)) (UPDATE_STUDENT q2)
             = studentReducer state (UPDATE_STUDENT q2)).
  { intros q1 q2 E. destruct state as [l term course]. simpl. f_equal.
    rewrite map_map. apply map_ext. intros r. rewrite E.
    destruct (eqb (Student.id r) (Student.id q2)) eqn:Er.
    - now rewrite E, eqb_refl.
    - now rewrite Er. }
  intros E. split; [now apply G|].
  intros student now now'. unfold updateStudent, dispatch. now apply G.
Qed.

Lemma update_twice_is_last_update_witness :
  updateStudent Sample.ann 9 (updateStudent Sample.ann 8 Sample.annAndBob)
  = updateStudent Sample.ann 9 Sample.annAndBob.
Proof.
  exact (proj2 (update_twice_is_last_update Sample.annAndBob Sample.ann Sample.ann
                  eq_refl) Sample.ann 8%Z 9%Z).
Defined.

(** X4. UPDATE_STUDENT works in place: the record set keeps its length,
    every position that held a record of the payload's id holds the payload,
    and every other position holds the record it held. Hence the records of
    the other ids are the same, in the same order, and no record is added or
    lost. *)
Theorem update_is_local (state : StudentState) (payload : Student.Student) :
  let state' := studentReducer state (UPDATE_STUDENT payload) in
  List.length (students state') = List.length (students state)
  /\ (forall i : nat,
         nth_error (students state') i
         = option_map (fun r => if eqb (Student.id r) (Student.id payload)
                                then payload else r)
                      (nth_error (students state) i))
  /\ filter (fun r => negb (eqb (Student.id r) (Student.id payload))) (students state')
     = filter (fun r => negb (eqb (Student.id r) (Student.id payload))) (students state)
  /\ filter (fun r => eqb (Student.id r) (Student.id payload)) (students state')
     = map (fun _ => payload)
           (filter (fun r => eqb (Student.id r) (Student.id payload)) (students state)).
Proof.
  cbv zeta. split; [simpl; apply length_map|].
  split; [intros i; apply update_in_place|]. simpl.
  induction (students state) as [|r l [IH1 IH2]]; simpl; [split; reflexivity|].
  destruct (eqb (Student.id r) (Student.id payload)) eqn:E; simpl.
  - rewrite eqb_refl. simpl. now rewrite IH1, IH2.
  - rewrite E. simpl. now rewrite IH1, IH2.
Qed.

(** X5. With an empty search term and no course filter the projection is the
    whole record set. *)
Theorem no_filter_shows_all (state : StudentState) :
  searchTerm state = [] ->
  selectedCourseFilter state = None ->
  getFilteredStudents state = students state.
Proof.
  intros Et Ec. unfold getFilteredStudents.
  apply forallb_filter_id. apply forallb_forall. intros r _.
  unfold matchesSearch, matchesCourse. rewrite Et, Ec. simpl.
  now rewrite includes_nil.
Qed.

Lemma no_filter_shows_all_witness :
  getFilteredStudents Sample.annAndBob = students Sample.annAndBob.
Proof.
  apply (no_filter_shows_all Sample.annAndBob); reflexivity.
Defined.

(** X6. The case of the letters of the search term does not matter: two
    terms with the same lower-cased form give the same projection. *)
Theorem search_ignores_case_of_term (state : StudentState) (term1 term2 : jsstring) :
  toLowerCase term1 = toLowerCase term2 ->
  getFilteredStudents (setSearchTerm term1 state)
  = getFilteredStudents (setSearchTerm term2 state).
Proof.
  intros E. unfold getFilteredStudents, matchesSearch, matchesCourse. simpl.
  now rewrite E.
Qed.

Lemma search_ignores_case_of_term_witness :
  getFilteredStudents (setSearchTerm (str "AN") Sample.annAndBob)
  = getFilteredStudents (setSearchTerm (str "an") Sample.annAndBob).
Proof.
  apply (search_ignores_case_of_term Sample.annAndBob (str "AN") (str "an")).
  reflexivity.
Defined.

(** X7. For a term of ASCII characters, typing more never shows more: the
    lower-cased form of such a term is made of the lower-cased forms of its
    parts, so the projection for a term that contains [term] is a subsequence
    of the projection for [term], whatever the stored names and addresses. *)
Theorem longer_term_narrows (state : StudentState) (before term after : jsstring) :
  forallb isAscii (before ++ term ++ after) = true ->
  Subsequence (getFilteredStudents (setSearchTerm (before ++ term ++ after) state))
              (getFilteredStudents (setSearchTerm term state)).
Proof.
  intros _. unfold getFilteredStudents.
  change (students (setSearchTerm term state))
    with (students (setSearchTerm (before ++ term ++ after) state)).
  apply filter_Subsequence_filter. intros r _.
  unfold matchesSearch, matchesCourse.
  cbn [setSearchTerm dispatch studentReducer searchTerm selectedCourseFilter].
  rewrite !toLowerCase_app, !andb_true_iff, !orb_true_iff, !includes_factor.
  intros [[(x & y & E)|(x & y & E)] Hc]; (split; [|exact Hc]); [left | right];
    exists (x ++ toLowerCase before), (toLowerCase after ++ y);
    rewrite E; now rewrite <- !app_assoc.
Qed.

Lemma longer_term_narrows_witness :
  Subsequence (getFilteredStudents (setSearchTerm (str "ann") Sample.annAndBob))
              (getFilteredStudents (setSearchTerm (str "n") Sample.annAndBob)).
Proof.
  exact (longer_term_narrows Sample.annAndBob (str "a") (str "n") (str "n") eq_refl).
Defined.

(** X8. A record that is added shows at the end of the projection when it
    passes the search term and the course filter of the state, and does not
    show otherwise; the records shown before stay. *)
Theorem add_then_project (state : StudentState) (payload : Student.Student) :
  getFilteredStudents (dispatch (ADD_STUDENT payload) state)
  = getFilteredStudents state
    ++ (if matchesSearch state payload && matchesCourse state payload
        then [payload] else []).
Proof.
  unfold getFilteredStudents, dispatch, matchesSearch, matchesCourse. simpl.
  now rewrite filter_app.
Qed.

(** X9. With a course selected, the projection holds records of that course
    only, so that the enrolment count that the list computes on it is the
    size of the projection for the selected course and 0 for any other. *)
Theorem course_filter_counts (state : StudentState) (selected : Z) (course : Course.Course) :
  let shown := getFilteredStudents (setCourseFilter (Some selected) state) in
  Forall (fun r => Student.courseId r = selected) shown
  /\ StudentList.enrolledCount shown course
     = if Z.eqb (Course.id course) selected then List.length shown else 0.
Proof.
  intros shown.
  assert (F : Forall (fun r => Student.courseId r = selected) shown).
  { apply Forall_forall. intros r Hr. unfold shown, getFilteredStudents in Hr.
    apply filter_In in Hr as [_ Hr]. apply andb_true_iff in Hr as [_ Hr].
    unfold matchesCourse in Hr. simpl in Hr. now apply Z.eqb_eq. }
  split; [exact F|]. unfold StudentList.enrolledCount.
  induction F as [|r l Hr _ IH]; simpl.
  - now destruct (Z.eqb (Course.id course) selected).
  - rewrite Hr, Z.eqb_sym.
    destruct (Z.eqb (Course.id course) selected); simpl; now rewrite IH.
Qed.

End StoreExtras.

(* ================================================================= *)
(** * Further properties of the validation and of the form *)

Section ValidationExtras.
Import JsString RegExp Validation Spec MockApi StudentForm.

(** X10. The outcome for the name is decided by the length of its trimmed
    form: required at 0, too short at 1, too long above 50, accepted from 2
    to 50, a name of exactly 50 characters included. *)
Theorem nameError_by_length (name : jsstring) :
  (nameError name = Some (str "Name is required") <-> length (trim name) = 0)
  /\ (nameError name = Some (str "Name must be at least 2 characters")
      <-> length (trim name) = 1)
  /\ (nameError name = Some (str "Name must be less than 50 characters")
      <-> 50 < length (trim name))
  /\ (nameError name = None <-> 2 <= length (trim name) <= 50).
Proof.
  split; [|split; [|split]]; [| | |apply nameError_None].
  - rewrite nameError_required. unfold length.
    destruct (trim name); simpl; split; congruence.
  - unfold nameError, length.
    destruct (trim name) as [|c t]; cbn [truthy negb].
    + simpl. split; discriminate.
    + destruct (Nat.ltb_spec (List.length (c :: t)) 2);
        [split; [simpl in *; lia | reflexivity]|].
      destruct (Nat.ltb_spec 50 (List.length (c :: t))); split;
        try discriminate; simpl in *; lia.
  - unfold nameError, length.
    destruct (trim name) as [|c t]; cbn [truthy negb].
    + simpl. split; [discriminate | lia].
    + destruct (Nat.ltb_spec (List.length (c :: t)) 2);
        [split; [discriminate | simpl in *; lia]|].
      destruct (Nat.ltb_spec 50 (List.length (c :: t))); split;
        try discriminate; try reflexivity; simpl in *; lia.
Qed.

(** X11. The outcome for the address: required exactly when its trimmed form
    is empty, invalid exactly when the trimmed form is not empty and has not
    the shape [local@domain.tld], accepted exactly when it has the shape. *)
Theorem emailError_by_shape (email : jsstring) :
  (emailError email = Some (str "Email is required") <-> trim email = [])
  /\ (emailError email = Some (str "Please enter a valid email address")
      <-> trim email <> [] /\ ~ EmailShape (trim email))
  /\ (emailError email = None <-> EmailShape (trim email)).
Proof.
  rewrite <- isValidEmail_shape. unfold emailError.
  destruct (trim email) as [|c t] eqn:Et; cbn [truthy negb].
  - assert (V : isValidEmail email = false)
      by (unfold isValidEmail; now rewrite Et).
    rewrite V. repeat split; try congruence; try discriminate.
    intros [H _]. congruence.
  - destruct (isValidEmail email); cbn [negb]; repeat split;
      try congruence; try discriminate.
    intros [_ H]. congruence.
Qed.

Lemma count_at_part (s : jsstring) :
  Forall (fun c => notSpaceAt c = true) s -> count_occ ascii_dec s "@"%char = 0.
Proof.
  induction 1 as [|c s Hc _ IH]; simpl; [reflexivity|].
  destruct (ascii_dec c "@") as [->|_]; [discriminate Hc | assumption].
Qed.

Lemma notSpaceAt_not_blank (c : ascii) : notSpaceAt c = true -> isWhiteSpace c = false.
Proof.
  unfold notSpaceAt. rewrite negb_true_iff, orb_false_iff. tauto.
Qed.

(** X12. An address that passes [isValidEmail] has, once trimmed, exactly
    one [@], no white space, at least five characters, and neither [@] nor
    white space at its ends. *)
Theorem valid_email_is_well_formed (email : jsstring) :
  isValidEmail email = true ->
  count_occ ascii_dec (trim email) "@"%char = 1
  /\ Forall (fun c => isWhiteSpace c = false) (trim email)
  /\ 5 <= length (trim email)
  /\ (exists c rest, trim email = c :: rest /\ notSpaceAt c = true)
  /\ (exists front c, trim email = front ++ [c] /\ notSpaceAt c = true).
Proof.
  intros V. apply isValidEmail_shape in V.
  destruct V as (l & d & t & E & (Hl & Fl) & (Hd & Fd) & (Ht & Ft)).
  rewrite E. unfold str. simpl list_ascii_of_string.
  split; [|split; [|split; [|split]]].
  - rewrite !count_occ_app. simpl.
    rewrite !count_at_part by assumption. reflexivity.
  - rewrite !Forall_app. repeat split;
      try (eapply Forall_impl; [apply notSpaceAt_not_blank | eassumption]);
      repeat constructor.
  - unfold length. rewrite !length_app. simpl.
    destruct l; [congruence|]. destruct d; [congruence|]. destruct t; [congruence|].
    simpl. lia.
  - destruct l as [|c l]; [congruence|]. inversion Fl; subst.
    exists c. eexists. split; [reflexivity | assumption].
  - destruct (exists_last Ht) as (t' & c & ->).
    apply Forall_app in Ft as [_ Ft]. inversion Ft; subst.
    exists (l ++ ["@"%char] ++ d ++ ["."%char] ++ t'), c. split; [|assumption].
    now rewrite <- !app_assoc.
Qed.

Lemma valid_email_is_well_formed_witness :
  count_occ ascii_dec (trim (str " a@b.c ")) "@"%char = 1.
Proof.
  apply (valid_email_is_well_formed (str " a@b.c ")). reflexivity.
Defined.

(** X13. The verdict of the structural phase on a form is its verdict on
    the form with name and address trimmed, which is what the form submits:
    data that passed the check pass it again as stored. *)
Theorem validation_ignores_padding (formData : StudentFormData.StudentFormData) :
  validateStudent (trimmedForm formData) = validateStudent formData.
Proof.
  unfold validateStudent, trimmedForm, nameError, emailError, isValidEmail. simpl.
  now rewrite !trim_idem.
Qed.

(** Every run of [handleSubmit]. *)
Lemma handleSubmit_run (parseInt : jsstring -> Z)
      (formData : StudentFormData.StudentFormData) (student : option Student.Student)
      (onUpdate : bool) (randomImage : jsstring) (w : World) :
  handleSubmit parseInt formData student onUpdate randomImage w
  = if hasValidationErrors (validateStudent formData)
    then (Resolved (Invalid (validateStudent formData)), w)
    else match student with
         | Some s =>
             (Resolved (if onUpdate
                        then Edited (merged s (preparedData parseInt formData randomImage))
                        else Created (preparedData parseInt formData randomImage)), w)
         | None =>
             let (verdict, w') := validateStudentOnServer (serverData parseInt formData) w in
             (match verdict with
              | Resolved _ => Resolved (Created (preparedData parseInt formData randomImage))
              | Rejected message => Resolved (Failed message)
              end, w')
         end.
Proof.
  unfold handleSubmit.
  destruct (hasValidationErrors (validateStudent formData)); [reflexivity|].
  destruct student as [s|].
  - unfold tryCatch, await, resolve. now destruct onUpdate.
  - unfold tryCatch, await, resolve.
    now destruct (validateStudentOnServer (serverData parseInt formData) w) as [[u|m] w'].
Qed.

(** X14. When the structural phase finds an error, the submission ends with
    the field errors and the world is as before: the remote phase has not
    run, nothing was logged, nothing was stored. *)
Theorem structural_failure_stops_submission
        (parseInt : jsstring -> Z) (formData : StudentFormData.StudentFormData)
        (student : option Student.Student) (onUpdate : bool)
        (randomImage : jsstring) (w : World) :
  validateStudent formData <> noErrors ->
  handleSubmit parseInt formData student onUpdate randomImage w
  = (Resolved (Invalid (validateStudent formData)), w).
Proof.
  intros H. rewrite handleSubmit_run.
  destruct (hasValidationErrors (validateStudent formData)) eqn:E; [reflexivity|].
  now apply hasValidationErrors_false in E.
Qed.

Lemma structural_failure_stops_submission_witness :
  handleSubmit Sample.parseCourse1 (Sample.form "" "test@example.com" "1")
    None false (str "img") Sample.emptyWorld
  = (Resolved (Invalid (validateStudent (Sample.form "" "test@example.com" "1"))),
     Sample.emptyWorld).
Proof.
  apply (structural_failure_stops_submission Sample.parseCourse1
           (Sample.form "" "test@example.com" "1") None false (str "img")
           Sample.emptyWorld).
  vm_compute. discriminate.
Defined.

(** X15. An edit never runs the remote phase: with a form that passes the
    structural phase, the submission of an existing record ends with the
    edited record, whatever its address, and leaves the world as it was.
    The edited record keeps the id and both time stamps of the record that
    was edited and takes name and address, trimmed, from the form. *)
Theorem edit_skips_remote_validation
        (parseInt : jsstring -> Z) (formData : StudentFormData.StudentFormData)
        (s : Student.Student) (randomImage : jsstring) (w : World) :
  validateStudent formData = noErrors ->
  let edited := merged s (preparedData parseInt formData randomImage) in
  handleSubmit parseInt formData (Some s) true randomImage w = (Resolved (Edited edited), w)
  /\ Student.id edited = Student.id s
  /\ Student.createdAt edited = Student.createdAt s
  /\ Student.updatedAt edited = Student.updatedAt s
  /\ Student.name edited = trim (StudentFormData.name formData)
  /\ Student.email edited = trim (StudentFormData.email formData).
Proof.
  intros V edited. rewrite handleSubmit_run.
  rewrite (proj2 (hasValidationErrors_false _) V). repeat split.
Qed.

Lemma edit_skips_remote_validation_witness :
  handleSubmit Sample.parseCourse1 (Sample.form "Ann" "test@example.com" "1")
    (Some Sample.ann) true (str "img") Sample.emptyWorld
  = (Resolved
       (Edited (merged Sample.ann
                  (preparedData Sample.parseCourse1
                     (Sample.form "Ann" "test@example.com" "1") (str "img")))),
     Sample.emptyWorld).
Proof.
  exact (proj1 (edit_skips_remote_validation Sample.parseCourse1
                  (Sample.form "Ann" "test@example.com" "1") Sample.ann (str "img")
                  Sample.emptyWorld eq_refl)).
Defined.

(** X16. [handleSubmit] never rejects: its promise resolves whatever the
    form, the record and the world. For a new record whose form passes the
    structural phase, a rejection of [validateStudentOnServer] is caught and
    becomes the server error of the form, with the message of the rejection;
    and the form shows a server error in that case only. *)
Theorem handleSubmit_never_rejects
        (parseInt : jsstring -> Z) (formData : StudentFormData.StudentFormData)
        (student : option Student.Student) (onUpdate : bool)
        (randomImage : jsstring) (w : World) :
  (forall message : jsstring,
      fst (handleSubmit parseInt formData student onUpdate randomImage w)
      <> Rejected message)
  /\ (forall message : jsstring,
         fst (handleSubmit parseInt formData student onUpdate randomImage w)
         = Resolved (Failed message)
         <-> validateStudent formData = noErrors
             /\ student = None
             /\ fst (validateStudentOnServer (serverData parseInt formData) w)
                = Rejected message).
Proof.
  rewrite handleSubmit_run.
  destruct (hasValidationErrors (validateStudent formData)) eqn:E.
  - split; [discriminate|]. intros message. split; [discriminate|].
    intros (V & _). apply hasValidationErrors_false in V. congruence.
  - apply hasValidationErrors_false in E. destruct student as [s|].
    + split; [discriminate|]. intros message. split.
      * destruct onUpdate; discriminate.
      * intros (_ & H & _). discriminate.
    + destruct (validateStudentOnServer (serverData parseInt formData) w)
        as [[u|m] w'] eqn:V; cbn [fst].
      * split; [discriminate|]. intros message. split; [discriminate|].
        intros (_ & _ & H). discriminate.
      * split; [discriminate|]. intros message. split.
        -- intros H. injection H as ->. auto.
        -- intros (_ & _ & H). injection H as ->. reflexivity.
Qed.

(** X17. The data of a record that the form creates are clean: the name is
    trimmed and has 2 to 50 characters, the address is trimmed and has the
    shape [local@domain.tld], the course id is the parsed value of the form,
    a profile image is present, and, for a new record, the lower-cased
    address is not one of the existing ones. *)
Theorem created_data_are_valid
        (parseInt : jsstring -> Z) (formData : StudentFormData.StudentFormData)
        (student : option Student.Student) (onUpdate : bool)
        (randomImage : jsstring) (w : World) (studentData : StudentData.StudentData) :
  fst (handleSubmit parseInt formData student onUpdate randomImage w)
  = Resolved (Created studentData) ->
  2 <= length (StudentData.name studentData) <= 50
  /\ trim (StudentData.name studentData) = StudentData.name studentData
  /\ EmailShape (StudentData.email studentData)
  /\ trim (StudentData.email studentData) = StudentData.email studentData
  /\ StudentData.courseId studentData = parseInt (StudentFormData.courseId formData)
  /\ StudentData.profileImage studentData <> None
  /\ (student = None
      -> ~ In (toLowerCase (StudentData.email studentData)) existingEmails).
Proof.
  rewrite handleSubmit_run.
  destruct (hasValidationErrors (validateStudent formData)) eqn:E; [discriminate|].
  apply hasValidationErrors_false in E.
  apply validateStudent_noErrors in E as (En & Ee & _).
  apply nameError_None in En. apply emailError_None, isValidEmail_shape in Ee.
  assert (G : forall d, d = preparedData parseInt formData randomImage ->
              2 <= length (StudentData.name d) <= 50
              /\ trim (StudentData.name d) = StudentData.name d
              /\ EmailShape (StudentData.email d)
              /\ trim (StudentData.email d) = StudentData.email d
              /\ StudentData.courseId d = parseInt (StudentFormData.courseId formData)
              /\ StudentData.profileImage d <> None).
  { intros d ->. simpl. rewrite !trim_idem. repeat split; try tauto. discriminate. }
  destruct student as [s|].
  - destruct onUpdate; simpl; [discriminate|].
    intros H. injection H as <-.
    destruct (G _ eq_refl) as (H1 & H2 & H3 & H4 & H5 & H6).
    repeat split; try tauto. discriminate.
  - rewrite validateStudentOnServer_run.
    destruct (arrayIncludes existingEmails
                (toLowerCase (StudentData.email (serverData parseInt formData)))) eqn:A;
      cbn [fst]; [discriminate|].
    intros H. injection H as <-.
    destruct (G _ eq_refl) as (H1 & H2 & H3 & H4 & H5 & H6).
    repeat split; try tauto.
    intros _ Hin. apply arrayIncludes_In in Hin.
    cbn [serverData preparedData StudentData.email] in *. congruence.
Qed.

Lemma created_data_are_valid_witness :
  EmailShape
    (StudentData.email
       (preparedData Sample.parseCourse1 (Sample.form " Ann " " a@b.c " "1") (str "img"))).
Proof.
  apply (created_data_are_valid Sample.parseCourse1 (Sample.form " Ann " " a@b.c " "1")
           None false (str "img") Sample.emptyWorld
           (preparedData Sample.parseCourse1 (Sample.form " Ann " " a@b.c " "1") (str "img"))).
  vm_compute. reflexivity.
Defined.

End ValidationExtras.

(* ================================================================= *)
(** * Further properties of the remote calls, the course list and the hook *)

Section RemoteExtras.
Import JsString MockApi Spec.

(** X18. The remote verdict depends on the lower-cased address only, so an
    existing address is rejected in any mix of cases. Whatever the verdict,
    the function logs its first three lines in order, the microtask line
    before the timer line, and the fourth line exactly when it resolves. *)
Theorem remote_verdict_ignores_case
        (d1 d2 : StudentData.StudentData) (w1 w2 : World) :
  toLowerCase (StudentData.email d1) = toLowerCase (StudentData.email d2) ->
  fst (validateStudentOnServer d1 w1) = fst (validateStudentOnServer d2 w2)
  /\ console (snd (validateStudentOnServer d1 w1))
     = console w1
       ++ [str "1. Validation started (synchronous)";
           str "2. Microtask executed before setTimeout";
           str "3. Network delay completed (after timer)"]
       ++ match fst (validateStudentOnServer d1 w1) with
          | Resolved _ => [str "4. Validation completed successfully"]
          | Rejected _ => []
          end.
Proof.
  intros E. rewrite !validateStudentOnServer_run, E.
  destruct (arrayIncludes existingEmails (toLowerCase (StudentData.email d2)));
    split; reflexivity.
Qed.

Lemma remote_verdict_ignores_case_witness :
  fst (validateStudentOnServer (Sample.draft "Ann" "TEST@Example.Com" 1) Sample.emptyWorld)
  = Rejected duplicateEmail.
Proof.
  rewrite (proj1 (remote_verdict_ignores_case
                    (Sample.draft "Ann" "TEST@Example.Com" 1)
                    (Sample.draft "Ann" "test@example.com" 1)
                    Sample.emptyWorld Sample.emptyWorld eq_refl)).
  reflexivity.
Defined.

(** X19. [loadCourses] first raises [loading] and clears the error, keeping
    the data it had; once the fetch has settled, [loading] is down and
    exactly one of [data] and [error] is set, whatever the state before: the
    six courses when the network holds, the wrapped network error when it
    fails. A retry after a failure therefore forgets the failure. The world
    is left as it was. *)
Theorem loadCourses_settles
        (networkError : bool) (prev : ApiState.ApiState (list Course.Course)) (w : World) :
  let during := fst (fst (UseCourses.loadCourses networkError prev w)) in
  let settled := snd (fst (UseCourses.loadCourses networkError prev w)) in
  ApiState.loading during = true
  /\ ApiState.error during = None
  /\ ApiState.data during = ApiState.data prev
  /\ ApiState.loading settled = false
  /\ (ApiState.data settled = None <-> ApiState.error settled <> None)
  /\ (ApiState.data settled = Some mockCourses <-> networkError = false)
  /\ (ApiState.error settled
      = Some (str "Failed to fetch courses: Network error: Unable to fetch courses")
      <-> networkError = true)
  /\ settled = snd (fst (UseCourses.loadCourses networkError UseCourses.initialApiState w))
  /\ snd (UseCourses.loadCourses networkError prev w) = w.
Proof.
  destruct networkError; cbv zeta;
    unfold UseCourses.loadCourses, fetchCourses, tryCatch, await, simulateNetworkDelay,
      resolve, throwError; cbn [fst snd ApiState.loading ApiState.error ApiState.data
                                 UseCourses.startLoading];
    repeat split; try congruence; try discriminate.
Qed.

End RemoteExtras.

Section CourseExtras.
Import JsString StudentList.

Lemma find_append {A : Type} (f : A -> bool) (l1 l2 : list A) :
  find f (l1 ++ l2) = match find f l1 with
                      | Some x => Some x
                      | None => find f l2
                      end.
Proof.
  induction l1 as [|x l1 IH]; simpl; [reflexivity|]. now destruct (f x).
Qed.

Lemma courseMap_from (courses : list Course.Course) :
  forall (map : CourseMap) (key : Z),
    fold_left (fun m course => assign m (Course.id course) course) courses map key
    = match find (fun c => Z.eqb (Course.id c) key) (rev courses) with
      | Some c => Some c
      | None => map key
      end.
Proof.
  induction courses as [|c courses IH]; intros map key; simpl; [reflexivity|].
  rewrite IH, find_append.
  destruct (find (fun c0 => Z.eqb (Course.id c0) key) (rev courses)); [reflexivity|].
  simpl. unfold assign. rewrite Z.eqb_sym.
  now destruct (Z.eqb (Course.id c) key).
Qed.

Lemma find_unique (courses : list Course.Course) (c : Course.Course) :
  NoDup (map Course.id courses) -> In c courses ->
  find (fun c0 => Z.eqb (Course.id c0) (Course.id c)) courses = Some c.
Proof.
  induction courses as [|c0 courses IH]; simpl; intros N H; [contradiction|].
  inversion N as [|? ? Hn N']; subst.
  destruct H as [->|H].
  - now rewrite Z.eqb_refl.
  - destruct (Z.eqb_spec (Course.id c0) (Course.id c)) as [E|_]; [|now apply IH].
    exfalso. apply Hn. rewrite E. now apply in_map.
Qed.

(** X20. The course of a student is looked up by id among the courses. With
    pairwise distinct course ids, the lookup gives a course exactly when that
    course is in the list and carries the course id of the student, and gives
    nothing, shown as "Unknown Course", exactly when no course carries it. *)
Theorem course_lookup_by_id (courses : list Course.Course) (student : Student.Student) :
  NoDup (map Course.id courses) ->
  (forall c, getCourseForStudent courses student = Some c
             <-> In c courses /\ Course.id c = Student.courseId student)
  /\ (getCourseForStudent courses student = None
      <-> ~ In (Student.courseId student) (map Course.id courses))
  /\ (~ In (Student.courseId student) (map Course.id courses)
      -> courseLabel (getCourseForStudent courses student) = str "Unknown Course").
Proof.
  intros N. unfold getCourseForStudent, courseMap. rewrite courseMap_from.
  assert (Nr : NoDup (map Course.id (rev courses)))
    by (rewrite map_rev; now apply NoDup_rev).
  assert (Hnone : find (fun c => Z.eqb (Course.id c) (Student.courseId student)) (rev courses)
                  = None
                  <-> ~ In (Student.courseId student) (map Course.id courses)).
  { split.
    - intros F H. apply in_map_iff in H as (c & E & Hc).
      apply in_rev in Hc.
      apply (find_none _ _ F) in Hc. rewrite E, Z.eqb_refl in Hc. discriminate.
    - intros H.
      destruct (find (fun c => Z.eqb (Course.id c) (Student.courseId student)) (rev courses))
        as [c|] eqn:F; [|reflexivity].
      apply find_some in F as [Hc E]. apply Z.eqb_eq in E. exfalso. apply H.
      rewrite <- E. apply in_map. now apply in_rev. }
  split; [|split].
  - intros c. split.
    + destruct (find (fun c0 => Z.eqb (Course.id c0) (Student.courseId student)) (rev courses))
        as [c'|] eqn:F; [|discriminate].
      intros H. injection H as ->. apply find_some in F as [Hc E].
      split; [now apply in_rev | now apply Z.eqb_eq].
    + intros [Hc E]. rewrite <- E. rewrite (find_unique (rev courses) c Nr); [reflexivity|].
      now apply in_rev in Hc.
  - destruct (find (fun c => Z.eqb (Course.id c) (Student.courseId student)) (rev courses))
      as [c|] eqn:F.
    + split; [discriminate|]. intros H. apply Hnone in H. discriminate.
    + split; [intros _; now apply Hnone | reflexivity].
  - intros H. apply Hnone in H. now rewrite H.
Qed.

Lemma course_lookup_by_id_witness :
  getCourseForStudent MockApi.mockCourses Sample.bob
  = Some {| Course.id := 2; Course.name := str "CSS Mastery" |}.
Proof.
  apply (proj1 (course_lookup_by_id MockApi.mockCourses Sample.bob
                  ltac:(repeat constructor; simpl; intuition discriminate))).
  split; [right; left; reflexivity | reflexivity].
Defined.

Lemma enrolledCount_cons (s : Student.Student) (students : list Student.Student)
      (course : Course.Course) :
  enrolledCount (s :: students) course
  = (if Z.eqb (Student.courseId s) (Course.id course) then 1 else 0)
    + enrolledCount students course.
Proof.
  unfold enrolledCount. simpl.
  now destruct (Z.eqb (Student.courseId s) (Course.id course)).
Qed.

Lemma one_course_matches (courses : list Course.Course) (k : Z) :
  NoDup (map Course.id courses) ->
  list_sum (map (fun c => if Z.eqb k (Course.id c) then 1 else 0) courses)
  = if existsb (fun c => Z.eqb k (Course.id c)) courses then 1 else 0.
Proof.
  induction courses as [|c courses IH]; simpl; intros N; [reflexivity|].
  inversion N as [|? ? Hn N']; subst. rewrite (IH N').
  destruct (Z.eqb_spec k (Course.id c)) as [E|_]; simpl; [|reflexivity].
  destruct (existsb (fun c0 => Z.eqb k (Course.id c0)) courses) eqn:X; [|reflexivity].
  exfalso. apply existsb_exists in X as (c' & Hc' & E'). apply Z.eqb_eq in E'.
  apply Hn. rewrite <- E, E'. now apply in_map.
Qed.

(** X21. With pairwise distinct course ids, the enrolment counts of the
    statistics add up to the number of listed students whose course is one
    of the courses: no student is counted twice, and a student of an unknown
    course is not counted. *)
Theorem enrolment_counts_add_up
        (courses : list Course.Course) (students : list Student.Student) :
  NoDup (map Course.id courses) ->
  list_sum (map (enrolledCount students) courses)
  = List.length
      (filter (fun s => existsb (fun c => Z.eqb (Student.courseId s) (Course.id c)) courses)
              students).
Proof.
  intros N. induction students as [|s students IH].
  - simpl. induction courses as [|c courses IHc]; simpl; [reflexivity|].
    inversion N; subst. now rewrite IHc.
  - rewrite (map_ext _ _ (enrolledCount_cons s students)).
    assert (Hsum : forall (f g : Course.Course -> nat) l,
               list_sum (map (fun c => f c + g c) l)
               = list_sum (map f l) + list_sum (map g l)).
    { intros f g l. induction l as [|x l IHl]; simpl; [reflexivity|]. rewrite IHl. lia. }
    rewrite Hsum, IH, (one_course_matches courses (Student.courseId s) N). simpl.
    now destruct (existsb (fun c => Z.eqb (Student.courseId s) (Course.id c)) courses).
Qed.

Lemma enrolment_counts_add_up_witness :
  list_sum (map (enrolledCount [Sample.ann; Sample.bob]) MockApi.mockCourses) = 2.
Proof.
  rewrite (enrolment_counts_add_up MockApi.mockCourses [Sample.ann; Sample.bob]
             ltac:(repeat constructor; simpl; intuition discriminate)).
  reflexivity.
Defined.

End CourseExtras.

Section DebounceExtras.
Import UseDebounce Spec.
Local Open Scope Z_scope.
Variable T : Type.
Variable sameValue : T -> T -> bool.









End DebounceExtras.

